(** * The addition dataset of [play_math.ipynb]

    A shallow embedding of the class [AdditionDataset] (its constructor,
    [__len__] and [__getitem__]) together with the fragment of the Python
    run time and of numpy that the class relies on: integer powers, the
    conversion of an [int] to a [float], [float] multiplication,
    [int(float)], the [%0wd] conversion of the [%] operator, slices,
    indexing with negative positions, and [RandomState.permutation].

    Exceptions are values of an error monad.  Floats are IEEE 754 binary64
    on the standard library's specification floats, so that [num*0.2] is
    computed as the interpreter computes it.  numpy's generator is an
    interface: its [permutation] may raise (an array too long for numpy or
    for the machine), and the statements hold for every generator whose
    [permutation], when it returns, returns a rearrangement of
    [0 .. num-1]. *)

From Stdlib Require Import String ZArith List Ascii Bool Lia Permutation.
From Stdlib Require Import Floats.SpecFloat.
Import ListNotations.
Open Scope Z_scope.

(** [length] is the length of a list throughout. *)
Local Abbreviation length := Datatypes.length.

(** ** Exceptions *)

Module Py.

(** The exception classes the modelled code can raise.  [Unmodelled] is not
    a Python exception: it marks where the embedding stops, namely at
    arithmetic that would need the value of a [float] the model does not
    track (see [pynum]).  The constructor never produces it of its own,
    and no query on a constructed dataset reaches it
    ([init_never_unmodelled], [getitem_never_unmodelled]). *)
Inductive pyerr : Type :=
| OverflowError
| ZeroDivisionError
| IndexError
| ValueError
| MemoryError
| Unmodelled.

Inductive result (A : Type) : Type :=
| Ok (a : A)
| Raise (e : pyerr).
Arguments Ok {A} a.
Arguments Raise {A} e.

Definition bind {A B : Type} (m : result A) (k : A -> result B) : result B :=
  match m with
  | Ok a => k a
  | Raise e => Raise e
  end.

Fixpoint mapM {A B : Type} (f : A -> result B) (l : list A) : result (list B) :=
  match l with
  | [] => Ok []
  | a :: l' =>
      bind (f a) (fun b => bind (mapM f l') (fun bs => Ok (b :: bs)))
  end.

(** ** Numbers *)

(** A Python number as the constructor sees it: an [int] of unbounded size,
    or a [float] that came out of [**] with a negative exponent.  Such a
    [float] has magnitude at most 1; its value is not tracked, since its
    only consumer, [permutation], rejects every scalar that is not an
    integer, whatever its value. *)
Inductive pynum : Type :=
| PyInt (z : Z)
| PyFloat.

(** IEEE 754 binary64, on the specification floats of the standard library. *)
Definition prec : Z := 53.
Definition emax : Z := 1024.

(** The literal [0.2]: the double nearest to 1/5. *)
Definition float_0_2 : spec_float := S754_finite false 7205759403792794 (-55).

(** The least magnitude that rounds to [2^1024], past the largest double. *)
Definition float_overflow : Z := 2 ^ 1024 - 2 ^ 970.

(** [float(z)] as the arithmetic operators convert an [int] operand:
    round to nearest even, [OverflowError] when the rounded magnitude
    reaches [2^1024]. *)
Definition float_of_int (z : Z) : result spec_float :=
  if float_overflow <=? Z.abs z then Raise OverflowError
  else Ok (binary_normalize prec emax z 0 false).

(** [b ** e] for an [int] exponent [e].  On an [int] base: the integer
    power for [e >= 0]; for [e < 0] both operands are converted to [float],
    a zero base raises, and the result is a [float] of magnitude at most 1.
    On a [float] base the exponent is converted; a non-negative power keeps
    the magnitude at most 1, so nothing overflows, and a negative power
    would need the value. *)
Definition pow (b : pynum) (e : Z) : result pynum :=
  match b with
  | PyInt z =>
      if 0 <=? e then Ok (PyInt (z ^ e))
      else
        bind (float_of_int z) (fun _ =>
        bind (float_of_int e) (fun _ =>
        if z =? 0 then Raise ZeroDivisionError else Ok PyFloat))
  | PyFloat =>
      if 0 <=? e then bind (float_of_int e) (fun _ => Ok PyFloat)
      else Raise Unmodelled
  end.

(** [x * f] for a [float] literal [f]: an [int] [x] is converted first. *)
Definition mul_float (x : pynum) (f : spec_float) : result spec_float :=
  match x with
  | PyInt z => bind (float_of_int z) (fun fz => Ok (SFmul prec emax fz f))
  | PyFloat => Raise Unmodelled
  end.

(** [i // d] and [i % d] for an array element [i]: numpy's floor division
    and remainder, which give [0] for a zero divisor. *)
Definition floordiv (i : Z) (d : pynum) : result Z :=
  match d with
  | PyInt d => Ok (if d =? 0 then 0 else i / d)
  | PyFloat => Raise Unmodelled
  end.

Definition remainder (i : Z) (d : pynum) : result Z :=
  match d with
  | PyInt d => Ok (if d =? 0 then 0 else i mod d)
  | PyFloat => Raise Unmodelled
  end.

(** [int(f)]: truncation towards zero. *)
Definition int_of_float (f : spec_float) : result Z :=
  match f with
  | S754_zero _ => Ok 0
  | S754_finite s m e =>
      let t := Z.shiftl (Zpos m) e in
      Ok (if s then - t else t)
  | S754_infinity _ => Raise OverflowError
  | S754_nan => Raise ValueError
  end.

(** ** Strings *)

(** A [str] is the list of its characters. *)
Definition str : Type := list ascii.

Definition digit_char (d : Z) : ascii := ascii_of_nat (48 + Z.to_nat d).

(** Decimal digits of a non-negative integer, most significant first,
    without leading zeros ([0] prints as one digit). *)
Fixpoint digits_aux (fuel : nat) (z : Z) (acc : str) : str :=
  match fuel with
  | O => acc
  | S fuel' =>
      let acc' := digit_char (z mod 10) :: acc in
      if z / 10 =? 0 then acc' else digits_aux fuel' (z / 10) acc'
  end.

Definition digits (z : Z) : str :=
  digits_aux (S (Z.to_nat (Z.log2 z))) z [].

(** ['%0{w}d' % z]: sign first, then zeros up to the width [w], then the
    digits; a number wider than [w] is printed in full. *)
Definition format_0d (w : Z) (z : Z) : str :=
  let sign := if z <? 0 then ["-"%char] else [] in
  let ds := digits (Z.abs z) in
  let pad := Z.to_nat (w - Z.of_nat (length sign) - Z.of_nat (length ds)) in
  sign ++ repeat "0"%char pad ++ ds.

(** [int(s)] for a string [s] of one character. *)
Definition int_of_char (c : ascii) : result Z :=
  let k := Z.of_nat (nat_of_ascii c) in
  if (48 <=? k) && (k <=? 57) then Ok (k - 48) else Raise ValueError.

(** ** Sequences *)

(** The bound of a slice, brought into [0 .. len]: a negative bound counts
    from the end. *)
Definition slice_bound (len : nat) (k : Z) : nat :=
  if k <? 0 then Z.to_nat (Z.max 0 (Z.of_nat len + k))
  else Nat.min (Z.to_nat k) len.

(** [l[:k]] *)
Definition slice_to {A : Type} (l : list A) (k : Z) : list A :=
  firstn (slice_bound (length l) k) l.

(** [l[k:]] *)
Definition slice_from {A : Type} (l : list A) (k : Z) : list A :=
  skipn (slice_bound (length l) k) l.

(** [l[:k] = v] on a tensor: every position of the slice receives [v]. *)
Definition slice_to_fill {A : Type} (l : list A) (k : Z) (v : A) : list A :=
  let n := slice_bound (length l) k in
  repeat v n ++ skipn n l.

(** [l[k]] on an array: a negative position counts from the end,
    [IndexError] outside [-len .. len - 1]. *)
Definition index (l : list Z) (k : Z) : result Z :=
  let len := Z.of_nat (length l) in
  if (0 <=? k) && (k <? len) then Ok (nth (Z.to_nat k) l 0)
  else if (- len <=? k) && (k <? 0) then Ok (nth (Z.to_nat (len + k)) l 0)
  else Raise IndexError.

End Py.

Import Py.

Declare Scope py_scope.
Notation "x <- m ;; k" := (Py.bind m (fun x => k))
  (at level 61, m at next level, right associativity) : py_scope.
Open Scope py_scope.

(** ** numpy's generator *)

(** The interface of [numpy.random.RandomState] used by the constructor:
    seeding, and [permutation] on an integer argument, which allocates
    [arange(num)], shuffles it and leaves the generator in a new state.
    The call raises when the array cannot be had: [ValueError] for a
    length numpy does not allow, [MemoryError] for one the machine cannot
    hold. *)
Class NumpyRandom : Type := {
  rng : Type;
  RandomState : Z -> rng;
  shuffled_arange : rng -> Z -> result (list Z * rng)
}.

(** [range num], as a list. *)
Definition arange (num : Z) : list Z := map Z.of_nat (seq 0 (Z.to_nat num)).

(** The longest array numpy allows: lengths are signed 64-bit integers. *)
Definition max_array_length : Z := 2 ^ 63 - 1.

(** What numpy promises: a result is a rearrangement of [0 .. num-1]; no
    array is longer than numpy allows; an array of one element can always
    be had. *)
Class NumpyRandomSpec (R : NumpyRandom) : Prop := {
  shuffled_arange_perm :
    forall (r : rng) (num : Z) (p : list Z * rng),
      shuffled_arange r num = Ok p -> Permutation (fst p) (arange num);
  shuffled_arange_length :
    forall (r : rng) (num : Z) (p : list Z * rng),
      shuffled_arange r num = Ok p -> num <= max_array_length;
  shuffled_arange_one :
    forall r : rng, exists p : list Z * rng, shuffled_arange r 1 = Ok p
}.

(** [r.permutation(x)]: an integer is shuffled; a scalar that is not an
    integer is refused (with [IndexError], as numpy words it since 1.17). *)
Definition permutation `{NumpyRandom} (r : rng) (x : pynum) : result (list Z * rng) :=
  match x with
  | PyInt num => shuffled_arange r num
  | PyFloat => Raise IndexError
  end.

(** ** The class *)

Module AdditionDataset.

Record t : Type := mk {
  split : String.string;
  ndigit : Z;
  vocab_size : Z;
  block_size : Z;
  ixes : list Z
}.

Section Methods.
Context `{NumpyRandom}.

Definition __init__ (ndigit : Z) (split : String.string) : result t :=
  let vocab_size := 10 in
  let block_size := ndigit + ndigit + ndigit + 1 - 1 in
  p <- pow (PyInt 10) ndigit ;;
  num <- pow p 2 ;;
  let r := RandomState 1337 in
  shuffled <- permutation r num ;;
  let perm := fst shuffled in
  f <- mul_float num float_0_2 ;;
  i <- int_of_float f ;;
  let num_test := Z.min i 1000 in
  let ixes :=
    if String.eqb split "test"%string then slice_to perm num_test
    else slice_from perm num_test in
  Ok (mk split ndigit vocab_size block_size ixes).

End Methods.

Definition __len__ (self : t) : Z := Z.of_nat (length (ixes self)).

Definition __getitem__ (self : t) (idx : Z) : result (list Z * list Z) :=
  idx <- index (ixes self) idx ;;
  nd <- pow (PyInt 10) (ndigit self) ;;
  a <- floordiv idx nd ;;
  b <- remainder idx nd ;;
  let c := a + b in
  let render :=
    format_0d (ndigit self) a ++ format_0d (ndigit self) b
      ++ format_0d (ndigit self + 1) c in
  dix <- mapM int_of_char render ;;
  let x := slice_to dix (-1) in
  let y := slice_from dix 1 in
  let y := slice_to_fill y (ndigit self * 2 - 1) (-100) in
  Ok (x, y).

End AdditionDataset.

Import AdditionDataset.

(** ** Vocabulary of the statements *)

(** The [w] decimal digits of [z], most significant first: what a
    zero-padded rendering of width [w] holds when [0 <= z < 10^w]. *)
Fixpoint zdigits (w : nat) (z : Z) : list Z :=
  match w with
  | O => []
  | S w' => zdigits w' (z / 10) ++ [z mod 10]
  end.

(** The integer a sequence of digit tokens spells. *)
Definition int_of_tokens (l : list Z) : Z :=
  fold_left (fun acc d => 10 * acc + d) l 0.

(** The last [m] entries of a sequence. *)
Definition lastn {A : Type} (m : nat) (l : list A) : list A :=
  skipn (length l - m) l.

(** The ignore marker of the loss. *)
Definition sentinel : Z := -100.

(** The token sequence [dix] that [__getitem__] builds for the universe
    index [idx] (its lines from [nd = ...] to [dix = ...]). *)
Definition dix_of (ndigit idx : Z) : result (list Z) :=
  nd <- pow (PyInt 10) ndigit ;;
  a <- floordiv idx nd ;;
  b <- remainder idx nd ;;
  let c := a + b in
  mapM int_of_char
    (format_0d ndigit a ++ format_0d ndigit b ++ format_0d (ndigit + 1) c).

(** The tokens of ['%0{w}d' % z]. *)
Definition rendering (w z : Z) : result (list Z) :=
  mapM int_of_char (format_0d w z).

(** The operand pair of a universe index, as [__getitem__] decodes it. *)
Definition decode (ndigit idx : Z) : Z * Z :=
  (idx / 10 ^ ndigit, idx mod 10 ^ ndigit).

(** [num_test], from the universe size. *)
Definition num_test_of (num : pynum) : result Z :=
  f <- mul_float num float_0_2 ;;
  i <- int_of_float f ;;
  Ok (Z.min i 1000).

(** A generator for the examples: it hands out [arange] reversed, for
    every length numpy allows. *)
#[local] Instance RevRandom : NumpyRandom := {|
  rng := unit;
  RandomState := fun _ => tt;
  shuffled_arange := fun r num =>
    if num <=? max_array_length then Ok (rev (arange num), r)
    else Raise ValueError
|}.

(** Another generator for the examples.  Its state is the seed and the
    number of draws so far; seeded with 1337 its first permutation is
    [arange] reversed, any other draw is [arange] rotated by one. *)
#[local] Instance SeedRandom : NumpyRandom := {|
  rng := Z * Z;
  RandomState := fun seed => (seed, 0);
  shuffled_arange := fun r num =>
    if num <=? max_array_length then
      Ok (if (fst r =? 1337) && (snd r =? 0) then rev (arange num)
          else skipn 1 (arange num) ++ firstn 1 (arange num),
          (fst r, snd r + 1))
    else Raise ValueError
|}.

(** What the first [permutation(num)] of a generator freshly seeded with
    [seed] returns, or how it fails. *)
Definition first_permutation (R : NumpyRandom) (seed num : Z) : result (list Z) :=
  shuffled <- @shuffled_arange R (@RandomState R seed) num ;;
  Ok (fst shuffled).

(** The check that [num_test] is the capped fifth of the universe. *)
Definition num_test_check (n : Z) : bool :=
  match num_test_of (PyInt ((10 ^ n) ^ 2)) with
  | Ok nt => nt =? Z.min (100 ^ n / 5) 1000
  | Raise _ => false
  end.

(** The boundary, as a count. *)
Definition boundary (n : Z) : nat := Z.to_nat (Z.min (100 ^ n / 5) 1000).

(** The constructor's call of [permutation] returns. *)
Definition drawn `{NumpyRandom} (n : Z) : Prop :=
  exists p, shuffled_arange (RandomState 1337) (100 ^ n) = Ok p.

(** The permutation every construction with [n] digits draws (the
    universe in order, for reference, when the call raises and nothing is
    constructed). *)
Definition perm_of `{NumpyRandom} (n : Z) : list Z :=
  match shuffled_arange (RandomState 1337) (100 ^ n) with
  | Ok p => fst p
  | Raise _ => arange (100 ^ n)
  end.

(** The one-digit test split under [RevRandom]: the indices 99 down to 80. *)
Definition test1 : t :=
  Eval vm_compute in
    match @__init__ RevRandom 1 "test" with
    | Ok d => d
    | Raise _ => mk "test" 1 10 3 []
    end.

(** The one-digit train split under [RevRandom]: the indices 79 down to 0. *)
Definition train1 : t :=
  Eval vm_compute in
    match @__init__ RevRandom 1 "train" with
    | Ok d => d
    | Raise _ => mk "train" 1 10 3 []
    end.

(** A two-digit dataset holding the problems 6 + 39 and 85 + 50. *)
Definition two_problems : t := mk "train" 2 10 6 [639; 8550].

(** ** The notebook's prediction cell *)

(** [str(z)] for an [int]. *)
Definition str_of_int (z : Z) : str :=
  (if z <? 0 then ["-"%char] else []) ++ digits (Z.abs z).

(** The digits of [int(s)], read from the left.  A minus sign among them is
    refused as Python refuses it; any other character that is not a digit
    is outside the model (the strings parsed here are joined [str(i)]s,
    made of digits and minus signs only). *)
Fixpoint parse_digits (s : str) (acc : Z) : result Z :=
  match s with
  | [] => Ok acc
  | c :: s' =>
      match int_of_char c with
      | Ok d => parse_digits s' (10 * acc + d)
      | Raise _ =>
          if Ascii.eqb c "-" then Raise ValueError else Raise Unmodelled
      end
  end.

(** [int(s)] for a string: an optional minus sign, then at least one
    digit. *)
Definition int_of_str (s : str) : result Z :=
  match s with
  | [] => Raise ValueError
  | c :: s' =>
      if Ascii.eqb c "-" then
        match s' with
        | [] => Raise ValueError
        | _ :: _ => v <- parse_digits s' 0 ;; Ok (- v)
        end
      else parse_digits s 0
  end.

(** The sampling routine [mingpt.utils.sample] with the trained model
    behind it: from the prompt and the number of steps to the sequence it
    returns.  Its code is not part of the notebook. *)
Class Sampler : Type := {
  sample : list Z -> Z -> list Z
}.

(** Modelled from the spec: the sampling interface takes an input token
    sequence and a number of tokens to generate and returns the extended
    sequence; the tokens are those of a vocabulary of size 10. *)
Class SamplerSpec (S : Sampler) : Prop := {
  sample_extends :
    forall (input : list Z) (steps : Z),
      exists gen : list Z,
        sample input steps = input ++ gen /\
        length gen = Z.to_nat steps /\
        Forall (fun tok => 0 <= tok < 10) gen
}.

Module Notebook.

Definition split (num : Z) : result (list Z) :=
  list <- mapM int_of_char (str_of_int num) ;;
  if 1 <? Z.of_nat (length list) then Ok list
  else (first <- index list 0 ;; Ok [0; first]).

(** [predict] reads the global [ndigit] (2 in the notebook), a parameter
    here. *)
Definition predict `{Sampler} (ndigit : Z) (a b : Z) : result Z :=
  sa <- split a ;;
  sb <- split b ;;
  let input := sa ++ sb in
  let result := sample input (ndigit + 1) in
  int_of_str (concat (map str_of_int (slice_from result (- (ndigit + 1))))).

(** The [final_tokens] argument of the trainer's configuration. *)
Definition final_tokens (train_dataset : t) (ndigit : Z) : Z :=
  50 * __len__ train_dataset * (ndigit + 1).

End Notebook.

(** The entries of a target that bear loss: those that are not the ignore
    marker. *)
Definition unmasked (y : list Z) : Z :=
  Z.of_nat (length (filter (fun tok => negb (tok =? sentinel)) y)).

(** The loss-bearing entries of all the items of a dataset, one query per
    position [0 .. len-1]. *)
Definition loss_tokens (d : t) : result Z :=
  items <- mapM (__getitem__ d) (arange (__len__ d)) ;;
  Ok (fold_right Z.add 0 (map (fun xy => unmasked (snd xy)) items)).

(** A sampler for the examples: it answers nothing but zeros. *)
#[local] Instance ZeroSampler : Sampler := {|
  sample := fun input steps => input ++ repeat 0 (Z.to_nat steps)
|}.

(** A sampler for the examples: it adds the two two-digit operands of the
    prompt. *)
#[local] Instance AddingSampler : Sampler := {|
  sample := fun input steps =>
    input ++ zdigits (Z.to_nat steps)
               (int_of_tokens (firstn 2 input) + int_of_tokens (skipn 2 input))
|}.

(** ** The run time: numbers *)

Lemma float_of_int_small (z : Z) :
  Z.abs z < float_overflow ->
  float_of_int z = Ok (binary_normalize prec emax z 0 false).
Proof.
  intro Hz. unfold float_of_int.
  destruct (Z.leb_spec float_overflow (Z.abs z)); [lia|reflexivity].
Qed.

Lemma float_of_int_large (z : Z) :
  float_overflow <= Z.abs z -> float_of_int z = Raise OverflowError.
Proof.
  intro Hz. unfold float_of_int.
  destruct (Z.leb_spec float_overflow (Z.abs z)); [reflexivity|lia].
Qed.

Lemma float_overflow_gt_10 : 10 < float_overflow.
Proof. apply Z.ltb_lt. vm_compute. reflexivity. Qed.

Lemma pow_int_nonneg (z e : Z) : 0 <= e -> pow (PyInt z) e = Ok (PyInt (z ^ e)).
Proof. intro He. unfold pow. destruct (Z.leb_spec 0 e); [reflexivity|lia]. Qed.

(** With a negative exponent the power of ten is a [float], unless the
    exponent itself is too large for one. *)
Lemma pow_10_negative (e : Z) :
  e < 0 ->
  pow (PyInt 10) e =
  if float_overflow <=? - e then Raise OverflowError else Ok PyFloat.
Proof.
  intro He. unfold pow. destruct (Z.leb_spec 0 e); [lia|].
  pose proof float_overflow_gt_10.
  rewrite (float_of_int_small 10) by (change (Z.abs 10) with 10; lia).
  cbn [bind]. destruct (Z.leb_spec float_overflow (- e)).
  - rewrite float_of_int_large by lia. reflexivity.
  - rewrite float_of_int_small by lia. reflexivity.
Qed.

Lemma pow_float_2 : pow PyFloat 2 = Ok PyFloat.
Proof.
  pose proof float_overflow_gt_10.
  unfold pow. cbn [Z.leb Z.compare].
  rewrite float_of_int_small by (change (Z.abs 2) with 2; lia). reflexivity.
Qed.

(** ** The run time: digits and formatting *)

Lemma zdigits_length (w : nat) (z : Z) : length (zdigits w z) = w.
Proof.
  revert z; induction w as [|w IH]; intro z; simpl; [reflexivity|].
  rewrite length_app, IH; simpl; lia.
Qed.

Lemma zdigits_range (w : nat) (z : Z) :
  Forall (fun d => 0 <= d <= 9) (zdigits w z).
Proof.
  revert z; induction w as [|w IH]; intro z; simpl; [constructor|].
  apply Forall_app; split; [apply IH|].
  constructor; [|constructor].
  pose proof (Z.mod_pos_bound z 10); lia.
Qed.

Lemma zdigits_zero (k : nat) : zdigits k 0 = repeat 0 k.
Proof.
  induction k as [|k IH]; [reflexivity|].
  cbn [zdigits]. change (0 / 10) with 0. change (0 mod 10) with 0.
  rewrite IH. now rewrite <- repeat_cons.
Qed.

Lemma zdigits_pad (m k : nat) (z : Z) :
  0 <= z < 10 ^ Z.of_nat m ->
  zdigits (k + m) z = repeat 0 k ++ zdigits m z.
Proof.
  revert z; induction m as [|m IH]; intros z Hz.
  - simpl in Hz. assert (z = 0) by lia; subst.
    rewrite Nat.add_0_r, app_nil_r. apply zdigits_zero.
  - rewrite Nat.add_succ_r. cbn [zdigits].
    rewrite IH, app_assoc; [reflexivity|].
    rewrite Nat2Z.inj_succ, Z.pow_succ_r in Hz by lia.
    split; [apply Z.div_pos; lia|].
    apply Z.div_lt_upper_bound; lia.
Qed.

Lemma int_of_tokens_snoc (l : list Z) (d : Z) :
  int_of_tokens (l ++ [d]) = 10 * int_of_tokens l + d.
Proof. unfold int_of_tokens. now rewrite fold_left_app. Qed.

Lemma int_of_tokens_zdigits (w : nat) (z : Z) :
  int_of_tokens (zdigits w z) = z mod 10 ^ Z.of_nat w.
Proof.
  revert z; induction w as [|w IH]; intro z.
  - simpl. now rewrite Z.mod_1_r.
  - cbn [zdigits]. rewrite int_of_tokens_snoc, IH.
    rewrite Nat2Z.inj_succ, Z.pow_succ_r by lia.
    rewrite Z.rem_mul_r by (try apply Z.pow_pos_nonneg; lia). lia.
Qed.

Lemma digits_aux_zdigits (fuel : nat) :
  forall (z : Z) (acc : str),
    0 <= z < 2 ^ Z.of_nat fuel -> fuel <> O ->
    exists m : nat,
      (1 <= m)%nat /\
      digits_aux fuel z acc = map digit_char (zdigits m z) ++ acc /\
      z < 10 ^ Z.of_nat m /\
      (m = 1%nat \/ 10 ^ (Z.of_nat m - 1) <= z).
Proof.
  induction fuel as [|fuel IH]; intros z acc Hz Hf; [congruence|].
  cbn [digits_aux]. destruct (Z.eqb_spec (z / 10) 0) as [Hq|Hq].
  - exists 1%nat. split; [lia|]. split; [reflexivity|].
    change (10 ^ Z.of_nat 1) with 10.
    pose proof (Z.div_mod z 10). pose proof (Z.mod_pos_bound z 10). lia.
  - assert (Hq1 : 1 <= z / 10).
    { pose proof (Z.div_pos z 10). lia. }
    assert (Hq2 : z / 10 < 2 ^ Z.of_nat fuel).
    { apply Z.div_lt_upper_bound; [lia|].
      rewrite Nat2Z.inj_succ, Z.pow_succ_r in Hz by lia. lia. }
    assert (Hf' : fuel <> O).
    { intros ->. simpl in Hq2. lia. }
    destruct (IH (z / 10) (digit_char (z mod 10) :: acc))
      as (m & Hm & Heq & Hlt & Hge); [lia|assumption|].
    pose proof (Z.div_mod z 10). pose proof (Z.mod_pos_bound z 10).
    exists (S m). split; [lia|]. split; [|split].
    + rewrite Heq. cbn [zdigits]. rewrite map_app, <- app_assoc. reflexivity.
    + rewrite Nat2Z.inj_succ, Z.pow_succ_r by lia. lia.
    + right. replace (Z.of_nat (S m) - 1) with (Z.of_nat m) by lia.
      destruct Hge as [->|Hge]; [change (10 ^ Z.of_nat 1) with 10; lia|].
      replace (Z.of_nat m) with (Z.succ (Z.of_nat m - 1)) by lia.
      rewrite Z.pow_succ_r by lia. lia.
Qed.

Lemma digits_zdigits (z : Z) :
  0 <= z ->
  exists m : nat,
    (1 <= m)%nat /\ digits z = map digit_char (zdigits m z) /\
    z < 10 ^ Z.of_nat m /\ (m = 1%nat \/ 10 ^ (Z.of_nat m - 1) <= z).
Proof.
  intro Hz. unfold digits.
  destruct (digits_aux_zdigits (S (Z.to_nat (Z.log2 z))) z [])
    as (m & Hm & Heq & Hlt & Hge); [|discriminate|].
  - split; [assumption|].
    rewrite Nat2Z.inj_succ, Z2Nat.id by apply Z.log2_nonneg.
    destruct (Z.eq_dec z 0) as [->|Hnz]; [reflexivity|].
    apply Z.log2_spec; lia.
  - exists m. rewrite app_nil_r in Heq. auto.
Qed.

(** A number that fits the width is printed as exactly [w] digits. *)
Lemma format_0d_fits (w z : Z) :
  1 <= w -> 0 <= z < 10 ^ w ->
  format_0d w z = map digit_char (zdigits (Z.to_nat w) z).
Proof.
  intros Hw Hz. unfold format_0d.
  destruct (Z.ltb_spec z 0) as [|_]; [lia|].
  rewrite Z.abs_eq by lia.
  destruct (digits_zdigits z) as (m & Hm & -> & Hlt & Hge); [lia|].
  rewrite length_map, zdigits_length. cbn [length app].
  assert (Hmw : Z.of_nat m <= w).
  { destruct Hge as [->|Hge]; [lia|].
    destruct (Z.le_gt_cases (Z.of_nat m) w) as [|Hgt]; [assumption|].
    assert (10 ^ w <= 10 ^ (Z.of_nat m - 1)) by (apply Z.pow_le_mono_r; lia).
    lia. }
  replace (Z.to_nat w) with (Z.to_nat (w - 0 - Z.of_nat m) + m)%nat by lia.
  rewrite zdigits_pad by lia.
  rewrite map_app. f_equal.
  now rewrite map_repeat.
Qed.

Lemma int_of_digit_char (d : Z) : 0 <= d <= 9 -> int_of_char (digit_char d) = Ok d.
Proof.
  intro Hd.
  assert (Hc : d = 0 \/ d = 1 \/ d = 2 \/ d = 3 \/ d = 4 \/ d = 5 \/ d = 6
               \/ d = 7 \/ d = 8 \/ d = 9) by lia.
  repeat (destruct Hc as [->|Hc]; [reflexivity|]). now subst.
Qed.

Lemma mapM_app {A B : Type} (f : A -> result B) (l1 l2 : list A) (r1 r2 : list B) :
  mapM f l1 = Ok r1 -> mapM f l2 = Ok r2 -> mapM f (l1 ++ l2) = Ok (r1 ++ r2).
Proof.
  revert r1; induction l1 as [|a l1 IH]; intros r1 H1 H2; cbn [mapM app] in *.
  - now inversion H1.
  - destruct (f a) as [b|e]; cbn [bind] in *; [|discriminate].
    destruct (mapM f l1) as [bs|e]; cbn [bind] in *; [|discriminate].
    inversion H1; subst. now rewrite (IH bs eq_refl H2).
Qed.

Lemma mapM_digit_chars (ds : list Z) :
  Forall (fun d => 0 <= d <= 9) ds -> mapM int_of_char (map digit_char ds) = Ok ds.
Proof.
  induction 1 as [|d ds Hd _ IH]; [reflexivity|].
  cbn [map mapM]. now rewrite int_of_digit_char, IH.
Qed.

Lemma mapM_int_of_char_error (l : str) (e : pyerr) :
  mapM int_of_char l = Raise e -> e = ValueError.
Proof.
  induction l as [|c l IH]; cbn [mapM]; [discriminate|].
  unfold int_of_char at 1.
  destruct (_ && _); cbn [bind]; [|congruence].
  destruct (mapM int_of_char l) as [bs|e']; cbn [bind]; [discriminate|].
  intro H. inversion H; subst. now apply IH.
Qed.

Lemma rendering_fits (w z : Z) :
  1 <= w -> 0 <= z < 10 ^ w -> rendering w z = Ok (zdigits (Z.to_nat w) z).
Proof.
  intros Hw Hz. unfold rendering. rewrite format_0d_fits by assumption.
  apply mapM_digit_chars, zdigits_range.
Qed.

(** ** The run time: slices and indexing *)

Lemma slice_to_minus_one {A : Type} (l : list A) :
  slice_to l (-1) = firstn (length l - 1) l.
Proof.
  unfold slice_to, slice_bound. cbn [Z.ltb Z.compare].
  f_equal. lia.
Qed.

Lemma slice_from_one {A : Type} (l : list A) : slice_from l 1 = skipn 1 l.
Proof.
  unfold slice_from, slice_bound. cbn [Z.ltb Z.compare].
  destruct l as [|a l]; [reflexivity|].
  cbn [length]. replace (Nat.min (Z.to_nat 1) (S (length l))) with 1%nat by lia.
  reflexivity.
Qed.

Lemma slice_to_fill_inside {A : Type} (l : list A) (k : Z) (v : A) :
  0 <= k <= Z.of_nat (length l) ->
  slice_to_fill l k v = repeat v (Z.to_nat k) ++ skipn (Z.to_nat k) l.
Proof.
  intro Hk. unfold slice_to_fill, slice_bound.
  destruct (Z.ltb_spec k 0); [lia|].
  now replace (Nat.min (Z.to_nat k) (length l)) with (Z.to_nat k) by lia.
Qed.

Lemma slice_to_inside {A : Type} (l : list A) (k : Z) :
  0 <= k -> slice_to l k = firstn (Z.to_nat k) l.
Proof.
  intro Hk. unfold slice_to, slice_bound.
  destruct (Z.ltb_spec k 0); [lia|].
  destruct (Nat.le_ge_cases (Z.to_nat k) (length l)) as [Hle|Hge].
  - now rewrite Nat.min_l.
  - rewrite Nat.min_r by assumption. now rewrite !firstn_all2 by lia.
Qed.

Lemma slice_from_inside {A : Type} (l : list A) (k : Z) :
  0 <= k -> slice_from l k = skipn (Z.to_nat k) l.
Proof.
  intro Hk. unfold slice_from, slice_bound.
  destruct (Z.ltb_spec k 0); [lia|].
  destruct (Nat.le_ge_cases (Z.to_nat k) (length l)) as [Hle|Hge].
  - now rewrite Nat.min_l.
  - rewrite Nat.min_r by assumption. now rewrite !skipn_all2 by lia.
Qed.

Lemma index_inside (l : list Z) (k : Z) :
  0 <= k < Z.of_nat (length l) ->
  index l k = Ok (nth (Z.to_nat k) l 0) /\ In (nth (Z.to_nat k) l 0) l.
Proof.
  intro Hk. unfold index.
  destruct (Z.leb_spec 0 k); [|lia].
  destruct (Z.ltb_spec k (Z.of_nat (length l))); [|lia].
  split; [reflexivity|]. apply nth_In. lia.
Qed.

Lemma index_outside (l : list Z) (k : Z) :
  k < - Z.of_nat (length l) \/ Z.of_nat (length l) <= k ->
  index l k = Raise IndexError.
Proof.
  intro Hk. unfold index.
  destruct (Z.leb_spec 0 k); destruct (Z.ltb_spec k (Z.of_nat (length l)));
    destruct (Z.leb_spec (- Z.of_nat (length l)) k); destruct (Z.ltb_spec k 0);
    cbn [andb]; try reflexivity; lia.
Qed.

Lemma index_negative (l : list Z) (k : Z) :
  - Z.of_nat (length l) <= k < 0 ->
  index l k = index l (Z.of_nat (length l) + k).
Proof.
  intro Hk. unfold index.
  destruct (Z.leb_spec 0 k); [lia|].
  destruct (Z.leb_spec (- Z.of_nat (length l)) k); [|lia].
  destruct (Z.ltb_spec k 0); [|lia].
  destruct (Z.leb_spec 0 (Z.of_nat (length l) + k)); [|lia].
  destruct (Z.ltb_spec (Z.of_nat (length l) + k) (Z.of_nat (length l))); [|lia].
  reflexivity.
Qed.

(** ** [__getitem__] in closed form *)

Lemma getitem_dix (d : t) (k : Z) :
  __getitem__ d k =
  (idx <- index (ixes d) k ;;
   dix <- dix_of (ndigit d) idx ;;
   Ok (slice_to dix (-1),
       slice_to_fill (slice_from dix 1) (ndigit d * 2 - 1) sentinel)).
Proof.
  unfold __getitem__, dix_of.
  destruct (index (ixes d) k) as [idx|e]; [|reflexivity]. cbn [bind].
  destruct (pow (PyInt 10) (ndigit d)) as [nd|e]; [|reflexivity]. cbn [bind].
  destruct (floordiv idx nd) as [a|e]; [|reflexivity]. cbn [bind].
  destruct (remainder idx nd) as [b|e]; reflexivity.
Qed.

Lemma pow10_pos (n : Z) : 0 <= n -> 0 < 10 ^ n.
Proof. intro. apply Z.pow_pos_nonneg; lia. Qed.

Lemma universe_size (n : Z) : 0 <= n -> (10 ^ n) ^ 2 = 100 ^ n.
Proof.
  intro Hn. change 100 with (10 * 10). rewrite Z.pow_mul_l.
  rewrite Z.pow_2_r. reflexivity.
Qed.

(** The decoding is onto the pairs of [n]-digit operands. *)
Lemma decode_range (n idx : Z) :
  0 <= n -> 0 <= idx < 100 ^ n ->
  0 <= fst (decode n idx) < 10 ^ n /\ 0 <= snd (decode n idx) < 10 ^ n /\
  fst (decode n idx) * 10 ^ n + snd (decode n idx) = idx.
Proof.
  intros Hn Hidx. unfold decode. cbn [fst snd].
  pose proof (pow10_pos n Hn) as Hp.
  rewrite <- universe_size, Z.pow_2_r in Hidx by assumption.
  pose proof (Z.mod_pos_bound idx (10 ^ n) Hp).
  pose proof (Z.div_mod idx (10 ^ n)).
  repeat split; try lia.
  - apply Z.div_pos; lia.
  - apply Z.div_lt_upper_bound; lia.
Qed.

Lemma dix_of_fits (n idx : Z) :
  1 <= n -> 0 <= idx < 100 ^ n ->
  dix_of n idx =
  Ok (zdigits (Z.to_nat n) (idx / 10 ^ n) ++ zdigits (Z.to_nat n) (idx mod 10 ^ n)
        ++ zdigits (S (Z.to_nat n)) (idx / 10 ^ n + idx mod 10 ^ n)).
Proof.
  intros Hn Hidx.
  destruct (decode_range n idx) as (Ha & Hb & _); [lia|assumption|].
  unfold decode in Ha, Hb. cbn [fst snd] in Ha, Hb.
  pose proof (pow10_pos n ltac:(lia)) as Hp.
  unfold dix_of. rewrite pow_int_nonneg by lia.
  cbn [floordiv remainder bind].
  destruct (Z.eqb_spec (10 ^ n) 0); [lia|].
  rewrite !format_0d_fits; try lia.
  - replace (Z.to_nat (n + 1)) with (S (Z.to_nat n)) by lia.
    rewrite <- !map_app. apply mapM_digit_chars.
    apply Forall_app; split; [|apply Forall_app; split]; apply zdigits_range.
  - rewrite Z.pow_add_r, Z.pow_1_r by lia. lia.
Qed.

Lemma getitem_closed (d : t) (k idx : Z) :
  1 <= ndigit d -> index (ixes d) k = Ok idx -> 0 <= idx < 100 ^ ndigit d ->
  let n := Z.to_nat (ndigit d) in
  let a := idx / 10 ^ ndigit d in
  let b := idx mod 10 ^ ndigit d in
  __getitem__ d k =
  Ok (zdigits n a ++ zdigits n b ++ firstn n (zdigits (S n) (a + b)),
      repeat sentinel (2 * n - 1) ++ zdigits (S n) (a + b)).
Proof.
  intros Hn Hk Hidx n a b.
  rewrite getitem_dix, Hk. cbn [bind].
  rewrite dix_of_fits by assumption. cbn [bind]. fold n a b.
  set (za := zdigits n a). set (zb := zdigits n b).
  set (zc := zdigits (S n) (a + b)).
  assert (La : length za = n) by apply zdigits_length.
  assert (Lb : length zb = n) by apply zdigits_length.
  assert (Lc : length zc = S n) by apply zdigits_length.
  assert (Hn1 : (1 <= n)%nat) by (unfold n; lia).
  f_equal. f_equal.
  - rewrite slice_to_minus_one, !length_app, La, Lb, Lc.
    rewrite !firstn_app, La, Lb.
    rewrite (firstn_all2 za) by lia. rewrite (firstn_all2 zb) by lia.
    do 3 f_equal. lia.
  - rewrite slice_from_one, slice_to_fill_inside.
    + rewrite skipn_skipn.
      replace (Z.to_nat (ndigit d * 2 - 1)) with (2 * n - 1)%nat by (unfold n; lia).
      f_equal. rewrite !skipn_app, La, Lb.
      rewrite (skipn_all2 za) by lia. rewrite (skipn_all2 zb) by lia.
      cbn [app]. replace (2 * n - 1 + 1 - n - n)%nat with 0%nat by lia.
      reflexivity.
    + rewrite length_skipn, !length_app, La, Lb, Lc. unfold n. lia.
Qed.

(** ** Splitting a list in two *)

Lemma in_firstn_or_skipn {A : Type} (k : nat) (l : list A) (x : A) :
  In x l <-> In x (firstn k l) \/ In x (skipn k l).
Proof. now rewrite <- in_app_iff, firstn_skipn. Qed.

Lemma NoDup_app_disjoint {A : Type} (l1 l2 : list A) (x : A) :
  NoDup (l1 ++ l2) -> In x l1 -> ~ In x l2.
Proof.
  induction l1 as [|a l1 IH]; intros Hnd Hin; [contradiction|].
  cbn [app] in Hnd. inversion Hnd as [|? ? Hnotin Hnd']; subst.
  destruct Hin as [->|Hin]; [|now apply IH].
  intro Hx. apply Hnotin, in_or_app. now right.
Qed.

(** ** [arange] *)

Lemma arange_In (num i : Z) : In i (arange num) <-> 0 <= i < num.
Proof.
  unfold arange. rewrite in_map_iff. split.
  - intros (j & <- & Hj). apply in_seq in Hj. lia.
  - intro Hi. exists (Z.to_nat i). split; [lia|]. apply in_seq. lia.
Qed.

Lemma arange_NoDup (num : Z) : NoDup (arange num).
Proof.
  unfold arange. apply Finite.Injective_map_NoDup; [|apply seq_NoDup].
  intros x y Hxy. lia.
Qed.

Lemma arange_length (num : Z) : length (arange num) = Z.to_nat num.
Proof. unfold arange. now rewrite length_map, length_seq. Qed.

Lemma arange_nth (num : Z) (i : nat) :
  (i < Z.to_nat num)%nat -> nth i (arange num) 0 = Z.of_nat i.
Proof.
  intro Hi. unfold arange. change 0 with (Z.of_nat 0).
  now rewrite map_nth, seq_nth.
Qed.

(** [arange] reversed counts down. *)
Lemma rev_arange_nth (num : Z) (i : nat) :
  (i < Z.to_nat num)%nat -> nth i (rev (arange num)) 0 = num - 1 - Z.of_nat i.
Proof.
  intro Hi. rewrite rev_nth by (rewrite arange_length; exact Hi).
  rewrite arange_length, arange_nth; lia.
Qed.

(** The example generator keeps numpy's promise. *)
Lemma RevRandom_spec : NumpyRandomSpec RevRandom.
Proof.
  constructor.
  - intros r num p. cbn [shuffled_arange RevRandom].
    destruct (num <=? max_array_length); [|discriminate].
    intro Hp. injection Hp as <-. cbn [fst]. symmetry. apply Permutation_rev.
  - intros r num p. cbn [shuffled_arange RevRandom].
    destruct (Z.leb_spec num max_array_length); [trivial|discriminate].
  - intro r. eexists. reflexivity.
Qed.

(** ** The split boundary *)

Lemma num_test_checked : forallb num_test_check (arange 155) = true.
Proof. vm_compute. reflexivity. Qed.

(** Up to 154 digits the universe size converts to a [float], and the
    boundary is the exact fifth, capped. *)
Lemma num_test_small (n : Z) :
  0 <= n <= 154 ->
  num_test_of (PyInt ((10 ^ n) ^ 2)) = Ok (Z.min (100 ^ n / 5) 1000).
Proof.
  intro Hn. pose proof num_test_checked as Hall.
  rewrite forallb_forall in Hall.
  specialize (Hall n ltac:(apply arange_In; lia)).
  unfold num_test_check in Hall.
  destruct (num_test_of (PyInt ((10 ^ n) ^ 2))) as [nt|e]; [|discriminate].
  apply Z.eqb_eq in Hall. now subst.
Qed.

(** From 155 digits on, [num*0.2] raises: the universe size exceeds every
    [float]. *)
Lemma num_test_large (n : Z) :
  155 <= n -> num_test_of (PyInt ((10 ^ n) ^ 2)) = Raise OverflowError.
Proof.
  intro Hn. unfold num_test_of, mul_float.
  rewrite float_of_int_large; [reflexivity|].
  rewrite universe_size by lia.
  assert (100 ^ 155 <= 100 ^ n) by (apply Z.pow_le_mono_r; lia).
  assert (float_overflow <= 100 ^ 155) by (apply Z.leb_le; vm_compute; reflexivity).
  rewrite Z.abs_eq; lia.
Qed.

(** The literal [0.2] of the model is the correctly rounded quotient 1/5. *)
Lemma float_0_2_is_a_fifth :
  float_0_2 =
  SFdiv prec emax (binary_normalize prec emax 1 0 false)
    (binary_normalize prec emax 5 0 false).
Proof. vm_compute. reflexivity. Qed.

(** ** The constructor *)

Section Constructor.
Context {R : NumpyRandom}.

(** A negative digit width: the digit base is a [float] (or its exponent
    does not convert to one), and no dataset is built. *)
Lemma init_negative (n : Z) (s : string) :
  n < 0 ->
  __init__ n s =
  Raise (if float_overflow <=? - n then OverflowError else IndexError).
Proof.
  intro Hn. unfold __init__. rewrite pow_10_negative by assumption.
  destruct (float_overflow <=? - n); [reflexivity|].
  cbn [bind]. rewrite pow_float_2. reflexivity.
Qed.

Lemma init_unfold (n : Z) (s : string) :
  0 <= n ->
  __init__ n s =
  (shuffled <- shuffled_arange (RandomState 1337) ((10 ^ n) ^ 2) ;;
   nt <- num_test_of (PyInt ((10 ^ n) ^ 2)) ;;
   Ok (mk s n 10 (n + n + n + 1 - 1)
         (if String.eqb s "test" then slice_to (fst shuffled) nt
          else slice_from (fst shuffled) nt))).
Proof.
  intro Hn. unfold __init__, num_test_of.
  rewrite pow_int_nonneg by assumption. cbn [bind].
  rewrite pow_int_nonneg by lia. cbn [permutation bind].
  destruct (shuffled_arange (RandomState 1337) ((10 ^ n) ^ 2)) as [p|e];
    [|reflexivity].
  cbn [bind].
  destruct (mul_float (PyInt ((10 ^ n) ^ 2)) float_0_2) as [f|e]; [|reflexivity].
  cbn [bind]. destruct (int_of_float f) as [i|e]; reflexivity.
Qed.

(** Up to 154 digits the constructor returns whenever its call of
    [permutation] does. *)
Lemma init_succeeds (n : Z) (s : string) :
  0 <= n <= 154 ->
  drawn n ->
  __init__ n s =
  Ok (mk s n 10 (3 * n)
        (if String.eqb s "test" then firstn (boundary n) (perm_of n)
         else skipn (boundary n) (perm_of n))).
Proof.
  intros Hn (p & Hp). unfold perm_of. rewrite Hp.
  rewrite <- (universe_size n) in Hp by lia.
  rewrite init_unfold, Hp, num_test_small by lia. cbn [bind].
  assert (0 <= Z.min (100 ^ n / 5) 1000).
  { apply Z.min_glb; [|lia]. apply Z.div_pos; [|lia]. apply Z.pow_nonneg. lia. }
  rewrite slice_to_inside, slice_from_inside by assumption.
  unfold boundary. f_equal. f_equal. lia.
Qed.

(** From 155 digits on the constructor raises: in [permutation], or else
    at [num*0.2]. *)
Lemma init_too_wide (n : Z) (s : string) :
  155 <= n -> exists e, __init__ n s = Raise e.
Proof.
  intro Hn. rewrite init_unfold by lia.
  destruct (shuffled_arange _ _) as [p|e]; cbn [bind].
  - rewrite num_test_large by lia. eexists. reflexivity.
  - eexists. reflexivity.
Qed.

(** The constructor returns only if its call of [permutation] does. *)
Lemma init_drawn (n : Z) (s : string) (d : t) : __init__ n s = Ok d -> drawn n.
Proof.
  intro Hd.
  destruct (Z.lt_ge_cases n 0) as [Hneg|Hnn].
  { rewrite init_negative in Hd by assumption. discriminate. }
  rewrite init_unfold, universe_size in Hd by lia.
  destruct (shuffled_arange (RandomState 1337) (100 ^ n)) as [p|e] eqn:Hp;
    [|discriminate].
  exists p. exact Hp.
Qed.

Lemma init_inv (n : Z) (s : string) (d : t) :
  __init__ n s = Ok d ->
  0 <= n <= 154 /\
  d = mk s n 10 (3 * n)
        (if String.eqb s "test" then firstn (boundary n) (perm_of n)
         else skipn (boundary n) (perm_of n)).
Proof.
  intro Hd.
  destruct (Z.lt_ge_cases n 0) as [Hneg|Hnn].
  { rewrite init_negative in Hd by assumption. discriminate. }
  destruct (Z.le_gt_cases n 154) as [Hle|Hgt].
  - split; [lia|]. pose proof (init_drawn n s d Hd) as Hdr.
    rewrite init_succeeds in Hd by (lia || exact Hdr). now inversion Hd.
  - destruct (init_too_wide n s ltac:(lia)) as (e & He).
    rewrite He in Hd. discriminate.
Qed.

(** The constructor stays within the modelled fragment: it reports nothing
    as outside the model unless the generator handed to it does. *)
Lemma init_never_unmodelled (n : Z) (s : string) :
  __init__ n s = Raise Unmodelled ->
  shuffled_arange (RandomState 1337) (100 ^ n) = Raise Unmodelled.
Proof.
  intro H.
  destruct (Z.lt_ge_cases n 0) as [Hneg|Hnn].
  { rewrite init_negative in H by assumption.
    destruct (float_overflow <=? - n); discriminate. }
  rewrite <- (universe_size n) by lia. rewrite init_unfold in H by lia.
  destruct (shuffled_arange (RandomState 1337) ((10 ^ n) ^ 2)) as [p|e];
    cbn [bind] in H; [|congruence].
  destruct (Z.le_gt_cases n 154) as [Hle|Hgt].
  - rewrite num_test_small in H by lia. discriminate.
  - rewrite num_test_large in H by lia. discriminate.
Qed.

(** So does every query on a constructed dataset. *)
Lemma getitem_never_unmodelled (n : Z) (s : string) (d : t) (k : Z) :
  __init__ n s = Ok d -> __getitem__ d k <> Raise Unmodelled.
Proof.
  intro Hd. apply init_inv in Hd. destruct Hd as (Hn & ->).
  unfold __getitem__. cbn [ndigit ixes].
  destruct (index _ k) as [idx|e] eqn:Hidx; cbn [bind].
  - rewrite pow_int_nonneg by lia. cbn [bind floordiv remainder].
    destruct (mapM int_of_char _) as [dix|e] eqn:Hdix; cbn [bind];
      [discriminate|].
    apply mapM_int_of_char_error in Hdix. congruence.
  - unfold index in Hidx.
    destruct (_ && _); [discriminate|].
    destruct (_ && _); [discriminate|]. congruence.
Qed.

Context {RS : NumpyRandomSpec R}.

Lemma perm_of_spec (n : Z) : Permutation (perm_of n) (arange (100 ^ n)).
Proof.
  unfold perm_of.
  destruct (shuffled_arange (RandomState 1337) (100 ^ n)) as [p|e] eqn:Hp.
  - exact (shuffled_arange_perm _ _ _ Hp).
  - apply Permutation_refl.
Qed.

(** A universe numpy can hold has far fewer than 155 digits a side. *)
Lemma drawn_width (n : Z) : 0 <= n -> drawn n -> n <= 154.
Proof.
  intros Hn (p & Hp). apply shuffled_arange_length in Hp.
  destruct (Z.le_gt_cases n 154) as [|Hgt]; [assumption|exfalso].
  assert (100 ^ 155 <= 100 ^ n) by (apply Z.pow_le_mono_r; lia).
  assert (max_array_length < 100 ^ 155) by (apply Z.ltb_lt; vm_compute; reflexivity).
  lia.
Qed.

Lemma drawn_zero : drawn 0.
Proof. exact (shuffled_arange_one (RandomState 1337)). Qed.

Lemma perm_of_In (n i : Z) : In i (perm_of n) <-> 0 <= i < 100 ^ n.
Proof.
  rewrite <- arange_In. split; apply Permutation_in;
    [|symmetry]; apply perm_of_spec.
Qed.

Lemma perm_of_length (n : Z) : length (perm_of n) = Z.to_nat (100 ^ n).
Proof.
  rewrite (Permutation_length (perm_of_spec n)). apply arange_length.
Qed.

Lemma perm_of_NoDup (n : Z) : NoDup (perm_of n).
Proof.
  apply (Permutation_NoDup (l := arange (100 ^ n))); [|apply arange_NoDup].
  symmetry. apply perm_of_spec.
Qed.

Lemma boundary_le (n : Z) : 0 <= n -> (boundary n <= length (perm_of n))%nat.
Proof.
  intro Hn. rewrite perm_of_length. unfold boundary.
  assert (0 < 100 ^ n) by (apply Z.pow_pos_nonneg; lia).
  assert (100 ^ n / 5 <= 100 ^ n) by (apply Z.div_le_upper_bound; lia).
  lia.
Qed.

(** Every index a constructed dataset stores is a universe index. *)
Lemma init_ixes_range (n : Z) (s : string) (d : t) (i : Z) :
  __init__ n s = Ok d -> In i (ixes d) -> 0 <= i < 100 ^ n.
Proof.
  intros Hd Hi. apply init_inv in Hd. destruct Hd as (_ & ->).
  cbn [ixes] in Hi. apply perm_of_In.
  apply (in_firstn_or_skipn (boundary n)).
  destruct (String.eqb s "test"); [now left|now right].
Qed.

End Constructor.

(** ** The claims *)

Section Claims.
Context {R : NumpyRandom} {RS : NumpyRandomSpec R}.

(** C1.  For a digit width [n >= 1], the train and the test dataset
    constructed with [n] partition the universe: their sizes add up to
    [100^n], no universe index is stored by both, and an integer is stored
    by one of them exactly when it lies in [0, 100^n); neither stores an
    index twice.  Both constructions go through whenever numpy returns
    the permutation of the universe. *)
Theorem train_test_partition (n : Z) :
  1 <= n ->
  (forall p, shuffled_arange (RandomState 1337) (100 ^ n) = Ok p ->
   exists train test,
     __init__ n "train" = Ok train /\ __init__ n "test" = Ok test) /\
  (forall train test,
     __init__ n "train" = Ok train ->
     __init__ n "test" = Ok test ->
     __len__ train + __len__ test = 100 ^ n /\
     (forall i, In i (ixes train) -> ~ In i (ixes test)) /\
     (forall i, 0 <= i < 100 ^ n <-> In i (ixes train) \/ In i (ixes test)) /\
     NoDup (ixes train) /\ NoDup (ixes test)).
Proof.
  intro Hn. split.
  { intros p Hp. assert (Hdr : drawn n) by (exists p; exact Hp).
    pose proof (drawn_width n ltac:(lia) Hdr).
    do 2 eexists. split; apply init_succeeds; (lia || exact Hdr). }
  intros train test Htrain Htest.
  apply init_inv in Htrain. apply init_inv in Htest.
  destruct Htrain as (_ & ->). destruct Htest as (_ & ->).
  change (String.eqb "train" "test") with false.
  change (String.eqb "test" "test") with true.
  unfold __len__. cbn [ixes].
  pose proof (perm_of_NoDup n) as Hnd.
  rewrite <- (firstn_skipn (boundary n) (perm_of n)) in Hnd.
  split; [|split; [|split; [|split]]].
  - rewrite <- Nat2Z.inj_add, Nat.add_comm, <- length_app, firstn_skipn.
    rewrite perm_of_length. apply Z2Nat.id, Z.pow_nonneg. lia.
  - intros i Hi Hi'. exact (NoDup_app_disjoint _ _ i Hnd Hi' Hi).
  - intro i. rewrite <- perm_of_In, (in_firstn_or_skipn (boundary n)). tauto.
  - exact (NoDup_app_remove_l _ _ Hnd).
  - exact (NoDup_app_remove_r _ _ Hnd).
Qed.

(** C6.  For a digit width [n >= 1] the test split holds
    [min (100^n / 5) 1000] indices, 20 of a universe of 100 when [n = 1];
    the construction itself goes through whenever numpy returns the
    permutation of the universe. *)
Theorem test_split_size (n : Z) :
  1 <= n ->
  (forall p, shuffled_arange (RandomState 1337) (100 ^ n) = Ok p ->
   exists test, __init__ n "test" = Ok test) /\
  (forall test, __init__ n "test" = Ok test ->
     __len__ test = Z.min (100 ^ n / 5) 1000 /\
     (n = 1 -> 100 ^ n = 100 /\ __len__ test = 20)).
Proof.
  intro Hn. split.
  - intros p Hp. assert (Hdr : drawn n) by (exists p; exact Hp).
    pose proof (drawn_width n ltac:(lia) Hdr).
    eexists. apply init_succeeds; (lia || exact Hdr).
  - intros test Htest. apply init_inv in Htest. destruct Htest as (Hr & ->).
    change (String.eqb "test" "test") with true. unfold __len__. cbn [ixes].
    assert (Hlen : Z.of_nat (length (firstn (boundary n) (perm_of n)))
                   = Z.min (100 ^ n / 5) 1000).
    { rewrite length_firstn, Nat.min_l by (apply boundary_le; lia).
      unfold boundary. apply Z2Nat.id, Z.min_glb; [|lia].
      apply Z.div_pos; [|lia]. apply Z.pow_nonneg. lia. }
    split; [exact Hlen|].
    intros ->. rewrite Hlen. split; reflexivity.
Qed.

(** C7.  Construction is deterministic across independent runs.  Take two
    runs, each with a generator of its own (its own global state, its own
    history), that have in common only what numpy guarantees of seeding:
    a generator freshly seeded with 1337 returns the same first
    permutation of [100^n] in both, or fails alike.  Then the two
    constructions with the same digit width and split selector come out
    the same: the same error, or datasets that store the same ordered
    index sequence and answer every position alike. *)
Theorem construction_deterministic
  (R1 R2 : NumpyRandom) (n : Z) (s : string) :
  first_permutation R1 1337 (100 ^ n) = first_permutation R2 1337 (100 ^ n) ->
  @__init__ R1 n s = @__init__ R2 n s /\
  (forall d1 d2,
     @__init__ R1 n s = Ok d1 -> @__init__ R2 n s = Ok d2 ->
     ixes d1 = ixes d2 /\
     (forall k, __getitem__ d1 k = __getitem__ d2 k)).
Proof.
  intro Hseed.
  assert (E : @__init__ R1 n s = @__init__ R2 n s).
  { destruct (Z.lt_ge_cases n 0) as [Hneg|Hnn].
    { now rewrite !init_negative by assumption. }
    rewrite !init_unfold, !universe_size by assumption.
    unfold first_permutation in Hseed.
    destruct (@shuffled_arange R1 (@RandomState R1 1337) (100 ^ n)) as [p1|e1];
      destruct (@shuffled_arange R2 (@RandomState R2 1337) (100 ^ n)) as [p2|e2];
      cbn [bind] in Hseed |- *; try discriminate.
    - injection Hseed as ->. reflexivity.
    - injection Hseed as ->. reflexivity. }
  split; [exact E|].
  intros d1 d2 H1 H2. rewrite E, H2 in H1. injection H1 as <-.
  split; reflexivity.
Qed.

(** C10.  The split selector is not validated.  Whatever [s] other than
    ["test"] is passed, whenever numpy returns the permutation [perm] of
    the universe the construction succeeds, and what it stores is the
    train split's sequence [perm[num_test:]], with
    [num_test = min (100^n / 5) 1000]: the same sequence the selector
    ["train"] gives.  The selector never is the cause of a failure: the
    construction fails only where the one for ["train"] fails, with the
    same error. *)
Theorem split_not_validated (n : Z) (s : string) :
  s <> "test"%string ->
  (forall p,
     0 <= n ->
     shuffled_arange (RandomState 1337) (100 ^ n) = Ok p ->
     exists d train,
       __init__ n s = Ok d /\ __init__ n "train" = Ok train /\
       split d = s /\ ixes d = ixes train /\
       ixes train = slice_from (fst p) (Z.min (100 ^ n / 5) 1000)) /\
  (forall train, __init__ n "train" = Ok train ->
     exists d, __init__ n s = Ok d /\ ixes d = ixes train /\ split d = s) /\
  (forall e, __init__ n "train" = Raise e -> __init__ n s = Raise e).
Proof.
  intro Hs. apply String.eqb_neq in Hs. split.
  { intros p Hn Hp. assert (Hdr : drawn n) by (exists p; exact Hp).
    pose proof (drawn_width n Hn Hdr) as Hw.
    rewrite <- (universe_size n) in Hp by assumption.
    exists (mk s n 10 (n + n + n + 1 - 1)
              (slice_from (fst p) (Z.min (100 ^ n / 5) 1000))),
      (mk "train" n 10 (n + n + n + 1 - 1)
              (slice_from (fst p) (Z.min (100 ^ n / 5) 1000))).
    rewrite !init_unfold, Hp, num_test_small by lia. cbn [bind].
    rewrite Hs. change (String.eqb "train" "test") with false.
    repeat split. }
  unfold __init__. rewrite Hs. change (String.eqb "train" "test") with false.
  destruct (pow (PyInt 10) n) as [q|e]; cbn [bind]; [|split; congruence].
  destruct (pow q 2) as [num|e]; cbn [bind]; [|split; congruence].
  destruct (permutation (RandomState 1337) num) as [sh|e]; cbn [bind];
    [|split; congruence].
  destruct (mul_float num float_0_2) as [f|e]; cbn [bind]; [|split; congruence].
  destruct (int_of_float f) as [i|e]; cbn [bind]; [|split; congruence].
  split; [|discriminate].
  intros train Htrain. inversion Htrain; subst. cbn [ixes split]. eauto.
Qed.

(** A valid position of a constructed dataset holds a universe index. *)
Lemma constructed_position (n : Z) (s : string) (d : t) (k : Z) :
  __init__ n s = Ok d -> 0 <= k < __len__ d ->
  ndigit d = n /\
  exists idx, index (ixes d) k = Ok idx /\ 0 <= idx < 100 ^ n.
Proof.
  intros Hd Hk. unfold __len__ in Hk.
  destruct (index_inside (ixes d) k Hk) as (Hidx & Hin).
  split.
  - apply init_inv in Hd. destruct Hd as (_ & ->). reflexivity.
  - eexists. split; [exact Hidx|]. eapply init_ixes_range; eassumption.
Qed.

(** The code's [//] and [%] by the digit base compute [decode]. *)
Lemma decode_is_code (n idx : Z) :
  0 <= n ->
  exists nd,
    pow (PyInt 10) n = Ok nd /\
    floordiv idx nd = Ok (fst (decode n idx)) /\
    remainder idx nd = Ok (snd (decode n idx)).
Proof.
  intro Hn. pose proof (pow10_pos n Hn).
  exists (PyInt (10 ^ n)). split; [now apply pow_int_nonneg|].
  unfold decode, floordiv, remainder. cbn [fst snd].
  destruct (Z.eqb_spec (10 ^ n) 0); [lia|]. split; reflexivity.
Qed.

(** C2.  For a digit width [n >= 1], any split and any valid position,
    the item [(x, y)] round-trips: with [a] read from the first [n] tokens
    of [x] and [b] from the next [n], which are the operands the stored
    index decodes to, the zero-padded rendering of [a + b] in width [n+1]
    is the last [n+1] tokens of [x]'s first token followed by [y].  The
    decoding by quotient and remainder is a bijection from [0, 100^n) onto
    the pairs of [0, 10^n). *)
Theorem item_round_trip (n : Z) (s : string) (d : t) (k : Z) :
  1 <= n ->
  __init__ n s = Ok d ->
  0 <= k < __len__ d ->
  (exists idx x y,
     index (ixes d) k = Ok idx /\ __getitem__ d k = Ok (x, y) /\
     let w := Z.to_nat n in
     let a := int_of_tokens (firstn w x) in
     let b := int_of_tokens (firstn w (skipn w x)) in
     (a, b) = decode n idx /\
     rendering (n + 1) (a + b) = Ok (lastn (S w) (firstn 1 x ++ y))) /\
  (forall idx, 0 <= idx < 100 ^ n ->
     0 <= fst (decode n idx) < 10 ^ n /\ 0 <= snd (decode n idx) < 10 ^ n) /\
  (forall a b, 0 <= a < 10 ^ n -> 0 <= b < 10 ^ n ->
     0 <= a * 10 ^ n + b < 100 ^ n /\ decode n (a * 10 ^ n + b) = (a, b)) /\
  (forall i j, 0 <= i < 100 ^ n -> 0 <= j < 100 ^ n ->
     decode n i = decode n j -> i = j).
Proof.
  intros Hn Hd Hk.
  pose proof (pow10_pos n ltac:(lia)) as Hp.
  split; [|split; [|split]].
  - destruct (constructed_position n s d k Hd Hk) as (Hnd & idx & Hidx & Hr).
    pose proof (getitem_closed d k idx) as Hg. rewrite Hnd in Hg.
    specialize (Hg Hn Hidx Hr). cbv zeta in Hg.
    destruct (decode_range n idx) as (Ha & Hb & _); [lia|assumption|].
    unfold decode in Ha, Hb |- *. cbn [fst snd] in Ha, Hb.
    set (w := Z.to_nat n) in *.
    set (a := idx / 10 ^ n) in *. set (b := idx mod 10 ^ n) in *.
    assert (Hw : Z.of_nat w = n) by (unfold w; lia).
    do 3 eexists. split; [exact Hidx|]. split; [exact Hg|]. cbv zeta.
    assert (Ea : int_of_tokens
                   (firstn w (zdigits w a ++ zdigits w b
                                ++ firstn w (zdigits (S w) (a + b)))) = a).
    { rewrite firstn_app, zdigits_length, Nat.sub_diag, firstn_O, app_nil_r.
      rewrite firstn_all2 by (rewrite zdigits_length; lia).
      rewrite int_of_tokens_zdigits, Hw. apply Z.mod_small. lia. }
    assert (Eb : int_of_tokens
                   (firstn w (skipn w (zdigits w a ++ zdigits w b
                                ++ firstn w (zdigits (S w) (a + b))))) = b).
    { rewrite skipn_app, zdigits_length, Nat.sub_diag, skipn_O.
      rewrite skipn_all2 by (rewrite zdigits_length; lia). cbn [app].
      rewrite firstn_app, zdigits_length, Nat.sub_diag, firstn_O, app_nil_r.
      rewrite firstn_all2 by (rewrite zdigits_length; lia).
      rewrite int_of_tokens_zdigits, Hw. apply Z.mod_small. lia. }
    rewrite Ea, Eb. split; [reflexivity|].
    rewrite rendering_fits.
    + f_equal. replace (Z.to_nat (n + 1)) with (S w) by lia.
      unfold lastn. rewrite skipn_app.
      assert (L1 : length
                     (firstn 1 (zdigits w a ++ zdigits w b
                                  ++ firstn w (zdigits (S w) (a + b)))) = 1%nat).
      { rewrite length_firstn, !length_app, !zdigits_length. lia. }
      rewrite !length_app, L1, repeat_length, zdigits_length.
      rewrite skipn_all2 by lia. cbn [app].
      rewrite skipn_app, repeat_length.
      rewrite skipn_all2 by (rewrite repeat_length; lia). cbn [app].
      replace (1 + (2 * w - 1 + S w) - S w - 1 - (2 * w - 1))%nat with 0%nat by lia.
      reflexivity.
    + lia.
    + rewrite Z.pow_add_r, Z.pow_1_r by lia. lia.
  - intros idx Hidx. destruct (decode_range n idx) as (Ha & Hb & _); auto. lia.
  - intros a b Ha Hb. rewrite <- universe_size, Z.pow_2_r by lia.
    split; [nia|]. unfold decode. f_equal.
    + rewrite Z.div_add_l by lia. rewrite Z.div_small; lia.
    + rewrite Z.add_comm, Z.mod_add by lia. apply Z.mod_small. lia.
  - intros i j Hi Hj Hij. unfold decode in Hij. inversion Hij as [[Hq Hm]].
    rewrite (Z.div_mod i (10 ^ n)), (Z.div_mod j (10 ^ n)) by lia.
    now rewrite Hq, Hm.
Qed.

(** C3.  For a digit width [n >= 1], any split and any valid position,
    the target [y] has [3n] entries, and an entry is the ignore marker
    exactly when it is among the first [2n-1]. *)
Theorem target_mask (n : Z) (s : string) (d : t) (k : Z) :
  1 <= n ->
  __init__ n s = Ok d ->
  0 <= k < __len__ d ->
  exists x y,
    __getitem__ d k = Ok (x, y) /\
    Z.of_nat (length y) = 3 * n /\
    forall i : nat, (i < length y)%nat ->
      (nth i y 0 = sentinel <-> Z.of_nat i < 2 * n - 1).
Proof.
  intros Hn Hd Hk.
  destruct (constructed_position n s d k Hd Hk) as (Hnd & idx & Hidx & Hr).
  pose proof (getitem_closed d k idx) as Hg. rewrite Hnd in Hg.
  specialize (Hg Hn Hidx Hr). cbv zeta in Hg.
  set (w := Z.to_nat n) in *.
  set (c := idx / 10 ^ n + idx mod 10 ^ n) in *.
  do 2 eexists. split; [exact Hg|].
  rewrite length_app, repeat_length, zdigits_length.
  split; [unfold w; lia|].
  intros i Hi. destruct (Nat.lt_ge_cases i (2 * w - 1)) as [Hlt|Hge].
  - rewrite app_nth1 by (rewrite repeat_length; lia).
    rewrite nth_repeat_lt by assumption. unfold w in Hlt. split; [lia|reflexivity].
  - rewrite app_nth2 by (rewrite repeat_length; lia).
    rewrite repeat_length.
    pose proof (zdigits_range (S w) c) as Hall. rewrite Forall_forall in Hall.
    specialize (Hall (nth (i - (2 * w - 1)) (zdigits (S w) c) 0)
                  ltac:(apply nth_In; rewrite zdigits_length; lia)).
    unfold sentinel, w in *. split; lia.
Qed.

(** C9.  For a digit width [n >= 1] and a valid position, the token
    sequence built for the item has [3n+1] entries, [x] is that sequence
    without its last entry, [x] and [y] have [3n] entries each, and
    [block_size] is [3n]. *)
Theorem item_lengths (n : Z) (s : string) (d : t) (k : Z) :
  1 <= n ->
  __init__ n s = Ok d ->
  0 <= k < __len__ d ->
  block_size d = 3 * n /\
  exists idx dix x y,
    index (ixes d) k = Ok idx /\ dix_of (ndigit d) idx = Ok dix /\
    __getitem__ d k = Ok (x, y) /\ x = slice_to dix (-1) /\
    Z.of_nat (length dix) = 3 * n + 1 /\
    Z.of_nat (length x) = 3 * n /\ Z.of_nat (length y) = 3 * n.
Proof.
  intros Hn Hd Hk.
  destruct (constructed_position n s d k Hd Hk) as (Hnd & idx & Hidx & Hr).
  split.
  { apply init_inv in Hd. destruct Hd as (_ & ->). reflexivity. }
  pose proof (getitem_dix d k) as Hg. rewrite Hidx in Hg. cbn [bind] in Hg.
  rewrite Hnd in *. pose proof (dix_of_fits n idx Hn Hr) as Hdix.
  rewrite Hdix in Hg. cbn [bind] in Hg.
  set (dix := zdigits _ _ ++ zdigits _ _ ++ zdigits _ _) in *.
  assert (Ldix : length dix = (3 * Z.to_nat n + 1)%nat).
  { unfold dix. rewrite !length_app, !zdigits_length. lia. }
  do 4 eexists. split; [exact Hidx|]. split; [exact Hdix|].
  split; [exact Hg|]. split; [reflexivity|].
  split; [lia|]. split.
  - rewrite slice_to_minus_one, length_firstn. lia.
  - rewrite slice_from_one, slice_to_fill_inside
      by (rewrite length_skipn; lia).
    rewrite length_app, repeat_length, !length_skipn. lia.
Qed.

(** C4, as the code has it.  A position below [-size] or from [size] on
    fails with [IndexError]; a negative position down to [-size] does not
    fail as such: it is answered as position [size + k], counted from the
    end. *)
Theorem getitem_out_of_range (d : t) (k : Z) :
  (k < - __len__ d \/ __len__ d <= k -> __getitem__ d k = Raise IndexError) /\
  (- __len__ d <= k < 0 -> __getitem__ d k = __getitem__ d (__len__ d + k)).
Proof.
  unfold __len__. split; intro Hk.
  - unfold __getitem__. now rewrite index_outside.
  - unfold __getitem__. now rewrite index_negative.
Qed.

(** C5, as the code has it.  The digit width is not validated.  A negative
    width fails, with the [IndexError] of [permutation], which is handed a
    universe size that is no integer; the width 0 is accepted for either
    split selector: the universe has the one index 0, the test split is
    empty and the train split holds it. *)
Theorem digit_width_not_validated (s : string) :
  (forall n, n < 0 -> exists e, __init__ n s = Raise e) /\
  __init__ 0 s = Ok (mk s 0 10 0 (if String.eqb s "test" then [] else [0])).
Proof.
  split; [intros n Hn; eexists; now apply init_negative|].
  rewrite init_succeeds by (lia || exact drawn_zero).
  change (boundary 0) with 0%nat. cbn [firstn skipn].
  pose proof (perm_of_spec 0) as Hp. change (arange (100 ^ 0)) with [0] in Hp.
  symmetry in Hp. apply Permutation_length_1_inv in Hp. now rewrite Hp.
Qed.

(** C8, as the code has it.  Operands are rendered zero-padded to width
    [n] and their sum to width [n+1], whatever its number of meaningful
    digits; for [n = 2] the problem 6 + 39 gives the tokens
    [0,6,3,9,0,4,5], the input [0,6,3,9,0,4] and the target
    [s,s,s,0,4,5] of six entries, [s] the ignore marker. *)
Theorem rendering_zero_padded (d : t) (k a b : Z) :
  1 <= ndigit d ->
  0 <= a < 10 ^ ndigit d ->
  0 <= b < 10 ^ ndigit d ->
  index (ixes d) k = Ok (a * 10 ^ ndigit d + b) ->
  (exists ra rb rc,
     rendering (ndigit d) a = Ok ra /\ rendering (ndigit d) b = Ok rb /\
     rendering (ndigit d + 1) (a + b) = Ok rc /\
     Z.of_nat (length ra) = ndigit d /\ Z.of_nat (length rb) = ndigit d /\
     Z.of_nat (length rc) = ndigit d + 1 /\
     int_of_tokens ra = a /\ int_of_tokens rb = b /\ int_of_tokens rc = a + b /\
     dix_of (ndigit d) (a * 10 ^ ndigit d + b) = Ok (ra ++ rb ++ rc)) /\
  (ndigit d = 2 -> a = 6 -> b = 39 ->
   dix_of (ndigit d) (a * 10 ^ ndigit d + b) = Ok [0; 6; 3; 9; 0; 4; 5] /\
   __getitem__ d k =
     Ok ([0; 6; 3; 9; 0; 4], [sentinel; sentinel; sentinel; 0; 4; 5])).
Proof.
  intros Hn Ha Hb Hk. set (n := ndigit d) in *.
  pose proof (pow10_pos n ltac:(lia)) as Hp.
  assert (Hc : 0 <= a + b < 10 ^ (n + 1)).
  { rewrite Z.pow_add_r, Z.pow_1_r by lia. lia. }
  assert (Hidx : 0 <= a * 10 ^ n + b < 100 ^ n).
  { rewrite <- universe_size, Z.pow_2_r by lia. nia. }
  assert (Hq : (a * 10 ^ n + b) / 10 ^ n = a).
  { rewrite Z.div_add_l by lia. rewrite Z.div_small; lia. }
  assert (Hm : (a * 10 ^ n + b) mod 10 ^ n = b).
  { rewrite Z.add_comm, Z.mod_add by lia. apply Z.mod_small. lia. }
  split.
  - exists (zdigits (Z.to_nat n) a), (zdigits (Z.to_nat n) b),
      (zdigits (Z.to_nat (n + 1)) (a + b)).
    rewrite !rendering_fits, !zdigits_length, !int_of_tokens_zdigits by lia.
    rewrite !Z2Nat.id, !Z.mod_small by lia.
    repeat (split; [reflexivity|]).
    rewrite dix_of_fits, Hq, Hm by lia.
    now replace (S (Z.to_nat n)) with (Z.to_nat (n + 1)) by lia.
  - intros Hn2 -> ->.
    pose proof (getitem_closed d k _ Hn Hk Hidx) as Hg. cbv zeta in Hg.
    fold n in Hg. rewrite Hg, dix_of_fits by lia.
    rewrite Hn2. split; reflexivity.
Qed.

End Claims.

(** ** The statements at concrete inputs *)

Lemma train_test_partition_witness :
  1 <= 1 /\
  @__init__ RevRandom 1 "train" = Ok train1 /\
  @__init__ RevRandom 1 "test" = Ok test1 /\
  __len__ train1 + __len__ test1 = 100 ^ 1 /\
  (forall i, In i (ixes train1) -> ~ In i (ixes test1)) /\
  (forall i, 0 <= i < 100 ^ 1 <-> In i (ixes train1) \/ In i (ixes test1)) /\
  NoDup (ixes train1) /\ NoDup (ixes test1).
Proof.
  assert (H1 : 1 <= 1) by lia.
  assert (H2 : @__init__ RevRandom 1 "train" = Ok train1) by (vm_compute; reflexivity).
  assert (H3 : @__init__ RevRandom 1 "test" = Ok test1) by (vm_compute; reflexivity).
  exact (conj H1 (conj H2 (conj H3
           (proj2 (train_test_partition (R := RevRandom) (RS := RevRandom_spec) 1 H1)
              train1 test1 H2 H3)))).
Defined.

Lemma test_split_size_witness :
  1 <= 1 /\
  (forall p, @shuffled_arange RevRandom (RandomState 1337) (100 ^ 1) = Ok p ->
   exists test, @__init__ RevRandom 1 "test" = Ok test) /\
  (forall test, @__init__ RevRandom 1 "test" = Ok test ->
     __len__ test = Z.min (100 ^ 1 / 5) 1000 /\
     (1 = 1 -> 100 ^ 1 = 100 /\ __len__ test = 20)).
Proof.
  assert (H1 : 1 <= 1) by lia.
  exact (conj H1 (test_split_size (R := RevRandom) (RS := RevRandom_spec) 1 H1)).
Defined.

Lemma construction_deterministic_witness :
  first_permutation RevRandom 1337 (100 ^ 1)
    = first_permutation SeedRandom 1337 (100 ^ 1) /\
  @__init__ RevRandom 1 "test" = @__init__ SeedRandom 1 "test" /\
  @__init__ RevRandom 1 "test" = Ok test1 /\
  @__init__ SeedRandom 1 "test" = Ok test1 /\
  ixes test1 = ixes test1 /\
  (forall k, __getitem__ test1 k = __getitem__ test1 k).
Proof.
  assert (H0 : first_permutation RevRandom 1337 (100 ^ 1)
               = first_permutation SeedRandom 1337 (100 ^ 1))
    by (vm_compute; reflexivity).
  assert (H1 : @__init__ RevRandom 1 "test" = Ok test1) by (vm_compute; reflexivity).
  assert (H2 : @__init__ SeedRandom 1 "test" = Ok test1) by (vm_compute; reflexivity).
  pose proof (construction_deterministic RevRandom SeedRandom 1 "test" H0) as H.
  exact (conj H0 (conj (proj1 H) (conj H1 (conj H2 (proj2 H test1 test1 H1 H2))))).
Defined.

Lemma split_not_validated_witness :
  "Test"%string <> "test"%string /\
  0 <= 1 /\
  @shuffled_arange RevRandom (RandomState 1337) (100 ^ 1) = Ok (rev (arange 100), tt) /\
  exists d train,
    @__init__ RevRandom 1 "Test" = Ok d /\ @__init__ RevRandom 1 "train" = Ok train /\
    split d = "Test"%string /\ ixes d = ixes train /\
    ixes train = slice_from (fst (rev (arange 100), tt)) (Z.min (100 ^ 1 / 5) 1000).
Proof.
  assert (H1 : "Test"%string <> "test"%string) by discriminate.
  assert (H2 : 0 <= 1) by lia.
  assert (H3 : @shuffled_arange RevRandom (RandomState 1337) (100 ^ 1)
               = Ok (rev (arange 100), tt)) by reflexivity.
  exact (conj H1 (conj H2 (conj H3
           (proj1 (split_not_validated (R := RevRandom) (RS := RevRandom_spec)
                     1 "Test" H1) _ H2 H3)))).
Defined.

Lemma item_round_trip_witness :
  1 <= 1 /\
  @__init__ RevRandom 1 "test" = Ok test1 /\
  0 <= 0 < __len__ test1 /\
  exists idx x y,
    index (ixes test1) 0 = Ok idx /\ __getitem__ test1 0 = Ok (x, y) /\
    let w := Z.to_nat 1 in
    let a := int_of_tokens (firstn w x) in
    let b := int_of_tokens (firstn w (skipn w x)) in
    (a, b) = decode 1 idx /\
    rendering (1 + 1) (a + b) = Ok (lastn (S w) (firstn 1 x ++ y)).
Proof.
  assert (H1 : 1 <= 1) by lia.
  assert (H2 : @__init__ RevRandom 1 "test" = Ok test1) by (vm_compute; reflexivity).
  assert (H3 : 0 <= 0 < __len__ test1) by (vm_compute; split; [discriminate|reflexivity]).
  exact (conj H1 (conj H2 (conj H3
           (proj1 (item_round_trip (R := RevRandom) (RS := RevRandom_spec) 1 "test" test1 0 H1 H2 H3))))).
Defined.

Lemma target_mask_witness :
  1 <= 1 /\
  @__init__ RevRandom 1 "train" = Ok train1 /\
  0 <= 5 < __len__ train1 /\
  exists x y,
    __getitem__ train1 5 = Ok (x, y) /\
    Z.of_nat (length y) = 3 * 1 /\
    forall i : nat, (i < length y)%nat ->
      (nth i y 0 = sentinel <-> Z.of_nat i < 2 * 1 - 1).
Proof.
  assert (H1 : 1 <= 1) by lia.
  assert (H2 : @__init__ RevRandom 1 "train" = Ok train1) by (vm_compute; reflexivity).
  assert (H3 : 0 <= 5 < __len__ train1) by (vm_compute; split; [discriminate|reflexivity]).
  exact (conj H1 (conj H2 (conj H3
           (target_mask (R := RevRandom) (RS := RevRandom_spec) 1 "train" train1 5 H1 H2 H3)))).
Defined.

Lemma item_lengths_witness :
  1 <= 1 /\
  @__init__ RevRandom 1 "test" = Ok test1 /\
  0 <= 19 < __len__ test1 /\
  block_size test1 = 3 * 1 /\
  exists idx dix x y,
    index (ixes test1) 19 = Ok idx /\ dix_of (ndigit test1) idx = Ok dix /\
    __getitem__ test1 19 = Ok (x, y) /\ x = slice_to dix (-1) /\
    Z.of_nat (length dix) = 3 * 1 + 1 /\
    Z.of_nat (length x) = 3 * 1 /\ Z.of_nat (length y) = 3 * 1.
Proof.
  assert (H1 : 1 <= 1) by lia.
  assert (H2 : @__init__ RevRandom 1 "test" = Ok test1) by (vm_compute; reflexivity).
  assert (H3 : 0 <= 19 < __len__ test1) by (vm_compute; split; [discriminate|reflexivity]).
  exact (conj H1 (conj H2 (conj H3
           (item_lengths (R := RevRandom) (RS := RevRandom_spec) 1 "test" test1 19 H1 H2 H3)))).
Defined.

Lemma getitem_out_of_range_witness :
  (20 < - __len__ test1 \/ __len__ test1 <= 20) /\
  __getitem__ test1 20 = Raise IndexError /\
  - __len__ test1 <= -20 < 0 /\
  __getitem__ test1 (-20) = __getitem__ test1 (__len__ test1 + -20).
Proof.
  assert (H1 : 20 < - __len__ test1 \/ __len__ test1 <= 20)
    by (right; vm_compute; discriminate).
  assert (H2 : - __len__ test1 <= -20 < 0)
    by (vm_compute; split; [discriminate|reflexivity]).
  exact (conj H1 (conj (proj1 (getitem_out_of_range test1 20) H1)
           (conj H2 (proj2 (getitem_out_of_range test1 (-20)) H2)))).
Defined.

Lemma digit_width_not_validated_witness :
  -1 < 0 /\
  (exists e, @__init__ RevRandom (-1) "train" = Raise e) /\
  @__init__ RevRandom 0 "train" = Ok (mk "train" 0 10 0 [0]).
Proof.
  assert (H1 : -1 < 0) by lia.
  pose proof (digit_width_not_validated (R := RevRandom) (RS := RevRandom_spec) "train")
    as H.
  exact (conj H1 (conj (proj1 H (-1) H1) (proj2 H))).
Defined.

Lemma rendering_zero_padded_witness :
  1 <= ndigit two_problems /\
  0 <= 6 < 10 ^ ndigit two_problems /\
  0 <= 39 < 10 ^ ndigit two_problems /\
  index (ixes two_problems) 0 = Ok (6 * 10 ^ ndigit two_problems + 39) /\
  dix_of (ndigit two_problems) (6 * 10 ^ ndigit two_problems + 39)
    = Ok [0; 6; 3; 9; 0; 4; 5] /\
  __getitem__ two_problems 0 =
    Ok ([0; 6; 3; 9; 0; 4], [sentinel; sentinel; sentinel; 0; 4; 5]).
Proof.
  assert (H1 : 1 <= ndigit two_problems) by (vm_compute; discriminate).
  assert (H2 : 0 <= 6 < 10 ^ ndigit two_problems)
    by (vm_compute; split; [discriminate|reflexivity]).
  assert (H3 : 0 <= 39 < 10 ^ ndigit two_problems)
    by (vm_compute; split; [discriminate|reflexivity]).
  assert (H4 : index (ixes two_problems) 0 = Ok (6 * 10 ^ ndigit two_problems + 39))
    by (vm_compute; reflexivity).
  exact (conj H1 (conj H2 (conj H3 (conj H4
           (proj2 (rendering_zero_padded two_problems 0 6 39 H1 H2 H3 H4)
              eq_refl eq_refl eq_refl))))).
Defined.

(** ** Where the code departs from the specification *)

(** C4.  Position [-1] lies outside [0, size) and is answered all the same:
    on the one-digit test split (20 items) it returns the last item, that
    of index 80, the problem 8 + 0. *)
Lemma negative_position_is_answered :
  @__init__ RevRandom 1 "test" = Ok test1 /\
  __len__ test1 = 20 /\
  __getitem__ test1 (-1) = Ok ([8; 0; 0], [sentinel; 0; 8]).
Proof. repeat split; vm_compute; reflexivity. Qed.

(** C5.  The digit width 0 is below 1 and is accepted for both split
    selectors. *)
Lemma zero_digit_width_is_accepted :
  @__init__ RevRandom 0 "train" = Ok (mk "train" 0 10 0 [0]) /\
  @__init__ RevRandom 0 "test" = Ok (mk "test" 0 10 0 []).
Proof. split; vm_compute; reflexivity. Qed.

(** C8.  In the two-digit train split the problem 6 + 39 (index 639) has the
    target [s,s,s,0,4,5]: six entries, not the seven [s,s,s,9,0,4,5]. *)
Lemma target_of_6_plus_39 :
  exists d,
    @__init__ RevRandom 2 "train" = Ok d /\
    index (ixes d) 8360 = Ok 639 /\
    __getitem__ d 8360 =
      Ok ([0; 6; 3; 9; 0; 4], [sentinel; sentinel; sentinel; 0; 4; 5]) /\
    __getitem__ d 8360 <>
      Ok ([0; 6; 3; 9; 0; 4], [sentinel; sentinel; sentinel; 9; 0; 4; 5]).
Proof.
  eexists. split; [apply init_succeeds; [lia|eexists; reflexivity]|].
  assert (Hidx : index (skipn (boundary 2) (@perm_of RevRandom 2)) 8360 = Ok 639).
  { change (boundary 2) with (Z.to_nat 1000).
    change (@perm_of RevRandom 2) with (rev (arange 10000)).
    assert (Hk : 0 <= 8360
                 < Z.of_nat (length (skipn (Z.to_nat 1000) (rev (arange 10000))))).
    { rewrite length_skipn, length_rev, arange_length. lia. }
    rewrite (proj1 (index_inside _ _ Hk)).
    rewrite nth_skipn, rev_arange_nth by lia.
    rewrite Nat2Z.inj_add, !Z2Nat.id by lia. reflexivity. }
  change (String.eqb "train" "test") with false.
  split; [exact Hidx|].
  pose proof (getitem_closed
                (mk "train" 2 10 (3 * 2) (skipn (boundary 2) (@perm_of RevRandom 2)))
                8360 639 ltac:(cbn [ndigit]; lia) Hidx
                ltac:(cbn [ndigit]; lia)) as Hg.
  cbv zeta in Hg. rewrite Hg. split; [reflexivity|discriminate].
Qed.

(** ** More on the items of a constructed dataset *)

Lemma int_of_tokens_app (l1 l2 : list Z) :
  int_of_tokens (l1 ++ l2)
  = int_of_tokens l1 * 10 ^ Z.of_nat (length l2) + int_of_tokens l2.
Proof.
  induction l2 as [|d l2 IH] using rev_ind.
  - rewrite app_nil_r. cbn [length]. change (int_of_tokens []) with 0.
    change (10 ^ Z.of_nat 0) with 1. lia.
  - rewrite app_assoc, !int_of_tokens_snoc, IH, length_app.
    cbn [length]. rewrite Nat.add_1_r, Nat2Z.inj_succ, Z.pow_succ_r by lia.
    lia.
Qed.

Lemma int_of_tokens_bound (l : list Z) :
  Forall (fun d => 0 <= d <= 9) l ->
  0 <= int_of_tokens l < 10 ^ Z.of_nat (length l).
Proof.
  induction l as [|d l IH] using rev_ind; intro Hl.
  - change (int_of_tokens []) with 0. cbn [length].
    change (10 ^ Z.of_nat 0) with 1. lia.
  - apply Forall_app in Hl. destruct Hl as (Hl & Hd).
    inversion Hd as [|? ? Hd9 _]; subst.
    specialize (IH Hl). rewrite int_of_tokens_snoc, length_app.
    cbn [length]. rewrite Nat.add_1_r, Nat2Z.inj_succ, Z.pow_succ_r by lia.
    lia.
Qed.

Lemma zdigits_spell (w : nat) (z : Z) :
  0 <= z < 10 ^ Z.of_nat w -> int_of_tokens (zdigits w z) = z.
Proof. intro Hz. rewrite int_of_tokens_zdigits. now apply Z.mod_small. Qed.

Lemma unmasked_target (m w : nat) (c : Z) :
  unmasked (repeat sentinel m ++ zdigits w c) = Z.of_nat w.
Proof.
  unfold unmasked. rewrite filter_app, length_app.
  replace (filter _ (repeat sentinel m)) with (@nil Z).
  - cbn [length Nat.add]. f_equal.
    rewrite <- (zdigits_length w c) at 2. f_equal.
    apply forallb_filter_id, forallb_forall. intros d Hd.
    pose proof (zdigits_range w c) as Hall. rewrite Forall_forall in Hall.
    specialize (Hall d Hd). apply negb_true_iff, Z.eqb_neq.
    unfold sentinel. lia.
  - induction m as [|m IH]; [reflexivity|]. cbn [repeat filter].
    rewrite Z.eqb_refl. exact IH.
Qed.

Lemma mapM_pointwise {A B : Type} (f : A -> result B) (g : A -> B) (l : list A) :
  (forall a, In a l -> f a = Ok (g a)) -> mapM f l = Ok (map g l).
Proof.
  induction l as [|a l IH]; intro H; [reflexivity|].
  cbn [mapM map]. rewrite (H a (or_introl eq_refl)). cbn [bind].
  rewrite IH by (intros; apply H; now right). reflexivity.
Qed.

Lemma sum_constant {A : Type} (f : A -> Z) (c : Z) (l : list A) :
  (forall a, In a l -> f a = c) ->
  fold_right Z.add 0 (map f l) = Z.of_nat (length l) * c.
Proof.
  induction l as [|a l IH]; intro H; [reflexivity|].
  cbn [map fold_right length]. rewrite (H a (or_introl eq_refl)).
  rewrite IH by (intros; apply H; now right). lia.
Qed.

Section Items.
Context {R : NumpyRandom} {RS : NumpyRandomSpec R}.

(** The item at a valid position of a constructed dataset, spelled out. *)
Lemma constructed_item (n : Z) (s : string) (d : t) (k : Z) :
  1 <= n -> __init__ n s = Ok d -> 0 <= k < __len__ d ->
  exists idx,
    index (ixes d) k = Ok idx /\ In idx (ixes d) /\ 0 <= idx < 100 ^ n /\
    ndigit d = n /\
    __getitem__ d k =
    Ok (zdigits (Z.to_nat n) (idx / 10 ^ n) ++ zdigits (Z.to_nat n) (idx mod 10 ^ n)
          ++ firstn (Z.to_nat n)
               (zdigits (S (Z.to_nat n)) (idx / 10 ^ n + idx mod 10 ^ n)),
        repeat sentinel (2 * Z.to_nat n - 1)
          ++ zdigits (S (Z.to_nat n)) (idx / 10 ^ n + idx mod 10 ^ n)).
Proof.
  intros Hn Hd Hk.
  destruct (constructed_position n s d k Hd Hk) as (Hnd & idx & Hidx & Hr).
  exists idx. split; [exact Hidx|]. split.
  { unfold __len__ in Hk. destruct (index_inside (ixes d) k Hk) as (E & Hin).
    rewrite E in Hidx. inversion Hidx; subst. exact Hin. }
  split; [exact Hr|]. split; [exact Hnd|].
  pose proof (getitem_closed d k idx) as Hg. rewrite Hnd in Hg.
  exact (Hg Hn Hidx Hr).
Qed.

(** Every token handed to the model is a token of the vocabulary: the
    entries of [x] lie in [0, vocab_size), and so do the entries of [y]
    that are not the ignore marker. *)
Theorem tokens_in_vocabulary (n : Z) (s : string) (d : t) (k : Z) :
  1 <= n ->
  __init__ n s = Ok d ->
  0 <= k < __len__ d ->
  exists x y,
    __getitem__ d k = Ok (x, y) /\
    Forall (fun tok => 0 <= tok < vocab_size d) x /\
    Forall (fun tok => tok = sentinel \/ 0 <= tok < vocab_size d) y.
Proof.
  intros Hn Hd Hk.
  destruct (constructed_item n s d k Hn Hd Hk) as (idx & _ & _ & _ & _ & Hg).
  assert (Hv : vocab_size d = 10).
  { apply init_inv in Hd. destruct Hd as (_ & ->). reflexivity. }
  assert (Hdig : forall w z, Forall (fun tok => 0 <= tok < vocab_size d) (zdigits w z)).
  { intros w z. eapply Forall_impl; [|apply zdigits_range].
    cbv beta. intros. lia. }
  do 2 eexists. split; [exact Hg|]. split.
  - apply Forall_app; split; [apply Hdig|].
    apply Forall_app; split; [apply Hdig|].
    rewrite Forall_forall. intros tok Htok.
    pose proof (Hdig (S (Z.to_nat n)) (idx / 10 ^ n + idx mod 10 ^ n)) as Hall.
    rewrite Forall_forall in Hall.
    apply Hall. now apply (in_firstn_or_skipn (Z.to_nat n)); left.
  - apply Forall_app; split.
    + rewrite Forall_forall. intros tok Htok.
      apply repeat_spec in Htok. now left.
    + eapply Forall_impl; [|apply Hdig]. cbv beta. intros. now right.
Qed.

(** The target is the input moved on by one token: [x] is the token
    sequence without its last entry, and wherever [y] is not masked its
    entry is the token that follows in the sequence, so [y[i] = x[i+1]] up
    to the last position, which holds the last digit of the sum. *)
Theorem target_is_next_token (n : Z) (s : string) (d : t) (k : Z) :
  1 <= n ->
  __init__ n s = Ok d ->
  0 <= k < __len__ d ->
  exists idx dix x y,
    index (ixes d) k = Ok idx /\ dix_of (ndigit d) idx = Ok dix /\
    __getitem__ d k = Ok (x, y) /\
    (forall i : nat, Z.of_nat i < 3 * n -> nth i x 0 = nth i dix 0) /\
    (forall i : nat, 2 * n - 1 <= Z.of_nat i < 3 * n ->
       nth i y 0 = nth (S i) dix 0) /\
    (forall i : nat, 2 * n - 1 <= Z.of_nat i < 3 * n - 1 ->
       nth i y 0 = nth (S i) x 0).
Proof.
  intros Hn Hd Hk.
  destruct (constructed_item n s d k Hn Hd Hk) as (idx & Hidx & _ & Hr & Hnd & Hg).
  pose proof (dix_of_fits n idx Hn Hr) as Hdix. rewrite <- Hnd in Hdix at 1.
  set (w := Z.to_nat n) in *.
  set (a := idx / 10 ^ n) in *. set (b := idx mod 10 ^ n) in *.
  assert (Hw : Z.of_nat w = n) by (unfold w; lia).
  assert (La := zdigits_length w a). assert (Lb := zdigits_length w b).
  assert (Lc := zdigits_length (S w) (a + b)).
  assert (Hx : forall i : nat, Z.of_nat i < 3 * n ->
            nth i (zdigits w a ++ zdigits w b ++ firstn w (zdigits (S w) (a + b))) 0
            = nth i (zdigits w a ++ zdigits w b ++ zdigits (S w) (a + b)) 0).
  { intros i Hi. rewrite !app_assoc.
    destruct (Nat.lt_ge_cases i (w + w)) as [Hlt|Hge].
    - rewrite !(app_nth1 (zdigits w a ++ zdigits w b)) by (rewrite length_app; lia).
      reflexivity.
    - rewrite !(app_nth2 (zdigits w a ++ zdigits w b)) by (rewrite length_app; lia).
      rewrite length_app, La, Lb.
      rewrite <- (firstn_skipn w (zdigits (S w) (a + b))) at 2.
      rewrite app_nth1 by (rewrite length_firstn; lia). reflexivity. }
  assert (Hy : forall i : nat, 2 * n - 1 <= Z.of_nat i < 3 * n ->
            nth i (repeat sentinel (2 * w - 1) ++ zdigits (S w) (a + b)) 0
            = nth (S i) (zdigits w a ++ zdigits w b ++ zdigits (S w) (a + b)) 0).
  { intros i Hi.
    rewrite app_nth2 by (rewrite repeat_length; lia). rewrite repeat_length.
    rewrite app_assoc, app_nth2 by (rewrite length_app; lia).
    rewrite length_app, La, Lb. f_equal. lia. }
  do 4 eexists. split; [exact Hidx|]. split; [exact Hdix|].
  split; [exact Hg|]. split; [exact Hx|]. split; [exact Hy|].
  intros i Hi. rewrite Hy by lia. symmetry. apply Hx. lia.
Qed.

(** The index stored at a position, read back from the input. *)
Lemma input_index (n : Z) (s : string) (d : t) (k : Z) (x y : list Z) :
  1 <= n -> __init__ n s = Ok d -> 0 <= k < __len__ d ->
  __getitem__ d k = Ok (x, y) ->
  index (ixes d) k = Ok (int_of_tokens (firstn (Z.to_nat (2 * n)) x)).
Proof.
  intros Hn Hd Hk Hxy.
  destruct (constructed_item n s d k Hn Hd Hk) as (idx & Hidx & _ & Hr & _ & Hg).
  rewrite Hg in Hxy. inversion Hxy as [[Hx Hy]]. clear Hxy Hy.
  destruct (decode_range n idx) as (Ha & Hb & Hab); [lia|assumption|].
  unfold decode in Ha, Hb, Hab. cbn [fst snd] in Ha, Hb, Hab.
  set (w := Z.to_nat n) in *.
  assert (Hw : Z.of_nat w = n) by (unfold w; lia).
  rewrite Hidx. f_equal.
  replace (Z.to_nat (2 * n)) with (w + w)%nat by lia.
  rewrite app_assoc, firstn_app, length_app, !zdigits_length.
  rewrite Nat.sub_diag, firstn_O, app_nil_r.
  rewrite firstn_all2 by (rewrite length_app, !zdigits_length; lia).
  rewrite int_of_tokens_app, zdigits_length.
  rewrite !zdigits_spell by (rewrite Hw; assumption).
  rewrite Hw. symmetry. exact Hab.
Qed.

Lemma init_ixes_NoDup (n : Z) (s : string) (d : t) :
  __init__ n s = Ok d -> NoDup (ixes d).
Proof.
  intro Hd. apply init_inv in Hd. destruct Hd as (_ & ->). cbn [ixes].
  pose proof (perm_of_NoDup n) as Hnd.
  rewrite <- (firstn_skipn (boundary n) (perm_of n)) in Hnd.
  destruct (String.eqb s "test");
    [exact (NoDup_app_remove_r _ _ Hnd)|exact (NoDup_app_remove_l _ _ Hnd)].
Qed.

Lemma train_test_share_no_index (n : Z) (train test : t) (i : Z) :
  __init__ n "train" = Ok train -> __init__ n "test" = Ok test ->
  In i (ixes train) -> ~ In i (ixes test).
Proof.
  intros Htrain Htest Hi Hi'.
  apply init_inv in Htrain. apply init_inv in Htest.
  destruct Htrain as (_ & ->). destruct Htest as (_ & ->).
  change (String.eqb "train" "test") with false in Hi.
  change (String.eqb "test" "test") with true in Hi'. cbn [ixes] in Hi, Hi'.
  pose proof (perm_of_NoDup n) as Hnd.
  rewrite <- (firstn_skipn (boundary n) (perm_of n)) in Hnd.
  exact (NoDup_app_disjoint _ _ i Hnd Hi' Hi).
Qed.

Lemma init_zero_width (s : string) :
  __init__ 0 s = Ok (mk s 0 10 0 (if String.eqb s "test" then [] else [0])).
Proof.
  rewrite init_succeeds by (lia || exact drawn_zero).
  change (boundary 0) with 0%nat. cbn [firstn skipn].
  pose proof (perm_of_spec 0) as Hp. change (arange (100 ^ 0)) with [0] in Hp.
  symmetry in Hp. apply Permutation_length_1_inv in Hp. now rewrite Hp.
Qed.

(** The first [2n] tokens of an input spell the universe index stored at
    its position: the item tells which problem it is. *)
Theorem input_spells_index (n : Z) (s : string) (d : t) (k : Z) :
  1 <= n ->
  __init__ n s = Ok d ->
  0 <= k < __len__ d ->
  exists idx x y,
    index (ixes d) k = Ok idx /\ __getitem__ d k = Ok (x, y) /\
    0 <= idx < 100 ^ n /\
    int_of_tokens (firstn (Z.to_nat (2 * n)) x) = idx.
Proof.
  intros Hn Hd Hk.
  destruct (constructed_item n s d k Hn Hd Hk) as (idx & Hidx & _ & Hr & _ & Hg).
  pose proof (input_index n s d k _ _ Hn Hd Hk Hg) as Hi.
  rewrite Hidx in Hi. inversion Hi as [Hi'].
  do 3 eexists. split; [exact Hidx|]. split; [exact Hg|].
  split; [exact Hr|]. symmetry. exact Hi'.
Qed.

(** A constructed dataset holds no example twice: two valid positions
    whose items have the same input are the same position. *)
Theorem distinct_positions_distinct_inputs
  (n : Z) (s : string) (d : t) (k1 k2 : Z) (x1 y1 x2 y2 : list Z) :
  1 <= n ->
  __init__ n s = Ok d ->
  0 <= k1 < __len__ d ->
  0 <= k2 < __len__ d ->
  __getitem__ d k1 = Ok (x1, y1) ->
  __getitem__ d k2 = Ok (x2, y2) ->
  x1 = x2 ->
  k1 = k2.
Proof.
  intros Hn Hd Hk1 Hk2 H1 H2 Hx.
  pose proof (input_index n s d k1 _ _ Hn Hd Hk1 H1) as E1.
  pose proof (input_index n s d k2 _ _ Hn Hd Hk2 H2) as E2.
  rewrite <- Hx in E2. unfold __len__ in Hk1, Hk2.
  rewrite (proj1 (index_inside _ _ Hk1)) in E1.
  rewrite (proj1 (index_inside _ _ Hk2)) in E2.
  assert (Hnth : nth (Z.to_nat k1) (ixes d) 0 = nth (Z.to_nat k2) (ixes d) 0)
    by congruence.
  pose proof (init_ixes_NoDup n s d Hd) as Hnd.
  rewrite NoDup_nth in Hnd.
  specialize (Hnd (Z.to_nat k1) (Z.to_nat k2) ltac:(lia) ltac:(lia) Hnth). lia.
Qed.

(** No example of the train split is an example of the test split: items
    of the two datasets constructed with the same digit width never have
    the same input. *)
Theorem train_and_test_share_no_example
  (n : Z) (train test : t) (k1 k2 : Z) (x1 y1 x2 y2 : list Z) :
  1 <= n ->
  __init__ n "train" = Ok train ->
  __init__ n "test" = Ok test ->
  0 <= k1 < __len__ train ->
  0 <= k2 < __len__ test ->
  __getitem__ train k1 = Ok (x1, y1) ->
  __getitem__ test k2 = Ok (x2, y2) ->
  x1 <> x2.
Proof.
  intros Hn Htrain Htest Hk1 Hk2 H1 H2 Hx.
  pose proof (input_index n _ train k1 _ _ Hn Htrain Hk1 H1) as E1.
  pose proof (input_index n _ test k2 _ _ Hn Htest Hk2 H2) as E2.
  rewrite <- Hx in E2. unfold __len__ in Hk1, Hk2.
  destruct (index_inside _ _ Hk1) as (I1 & In1).
  destruct (index_inside _ _ Hk2) as (I2 & In2).
  rewrite I1 in E1. rewrite I2 in E2.
  assert (Hnth : nth (Z.to_nat k1) (ixes train) 0 = nth (Z.to_nat k2) (ixes test) 0)
    by congruence.
  rewrite <- Hnth in In2.
  exact (train_test_share_no_index n train test _ Htrain Htest In1 In2).
Qed.

(** The sizes of the two splits: the train split holds what the test split
    leaves of the universe, neither is empty, and the train split is at
    least four times the test split. *)
Theorem split_sizes (n : Z) (train test : t) :
  1 <= n ->
  __init__ n "train" = Ok train ->
  __init__ n "test" = Ok test ->
  __len__ train = 100 ^ n - Z.min (100 ^ n / 5) 1000 /\
  0 < __len__ test /\
  4 * __len__ test <= __len__ train.
Proof.
  intros Hn Htrain Htest.
  apply init_inv in Htrain. apply init_inv in Htest.
  destruct Htrain as (_ & ->). destruct Htest as (_ & ->).
  change (String.eqb "train" "test") with false.
  change (String.eqb "test" "test") with true.
  unfold __len__. cbn [ixes].
  pose proof (boundary_le n ltac:(lia)) as Hb.
  rewrite length_skipn, length_firstn, Nat.min_l by exact Hb.
  rewrite perm_of_length in *. unfold boundary in *.
  assert (H100 : 100 <= 100 ^ n).
  { change 100 with (100 ^ 1) at 1. apply Z.pow_le_mono_r; lia. }
  pose proof (Z.mul_div_le (100 ^ n) 5 ltac:(lia)).
  assert (20 <= 100 ^ n / 5) by (apply Z.div_le_lower_bound; lia).
  lia.
Qed.

(** The digit width 0, which the constructor accepts: the train split is
    one item whose input has two tokens although [block_size] is 0 (the
    mask bound [-1] counts from the end and covers all but the last
    target); the test split is empty, so every position is out of range. *)
Theorem zero_width_dataset (s : string) (d : t) :
  __init__ 0 s = Ok d ->
  block_size d = 0 /\
  (s = "test"%string ->
   __len__ d = 0 /\ forall k, __getitem__ d k = Raise IndexError) /\
  (s <> "test"%string ->
   __len__ d = 1 /\ __getitem__ d 0 = Ok ([0; 0], [sentinel; 0])).
Proof.
  intro Hd. rewrite init_zero_width in Hd. inversion Hd; subst. clear Hd.
  split; [reflexivity|]. split.
  - intros ->. split; [reflexivity|]. intro k.
    unfold __getitem__. cbn [ixes String.eqb Ascii.eqb Bool.eqb].
    rewrite index_outside; [reflexivity|]. cbn [length]. lia.
  - intro Hs. apply String.eqb_neq in Hs. rewrite Hs.
    split; reflexivity.
Qed.

(** The trainer's [final_tokens] is fifty times the number of target
    entries that bear loss over one pass through the dataset: every item
    has [n+1] entries that are not masked. *)
Theorem final_tokens_counts_loss_tokens (n : Z) (s : string) (d : t) :
  1 <= n ->
  __init__ n s = Ok d ->
  loss_tokens d = Ok (__len__ d * (n + 1)) /\
  Notebook.final_tokens d n = 50 * (__len__ d * (n + 1)).
Proof.
  intros Hn Hd. split; [|unfold Notebook.final_tokens; lia].
  set (item := fun k =>
         match __getitem__ d k with Ok xy => xy | Raise _ => ([], []) end).
  assert (Hitem : forall k, In k (arange (__len__ d)) ->
            __getitem__ d k = Ok (item k) /\ unmasked (snd (item k)) = n + 1).
  { intros k Hk. apply arange_In in Hk.
    destruct (constructed_item n s d k Hn Hd Hk) as (idx & _ & _ & _ & _ & Hg).
    unfold item. rewrite Hg. split; [reflexivity|].
    cbn [snd]. rewrite unmasked_target. lia. }
  unfold loss_tokens.
  rewrite (mapM_pointwise _ item) by (intros k Hk; apply Hitem, Hk).
  cbn [bind]. f_equal. rewrite map_map.
  rewrite (sum_constant _ (n + 1)).
  - rewrite arange_length. unfold __len__. lia.
  - intros k Hk. apply Hitem, Hk.
Qed.

End Items.

(** ** The prediction cell *)

Lemma str_of_int_nonneg (z : Z) : 0 <= z -> str_of_int z = digits z.
Proof.
  intro Hz. unfold str_of_int. destruct (Z.ltb_spec z 0); [lia|].
  now rewrite Z.abs_eq by lia.
Qed.

Lemma str_of_int_token (d : Z) : 0 <= d < 10 -> str_of_int d = [digit_char d].
Proof.
  intro Hd.
  assert (Hc : d = 0 \/ d = 1 \/ d = 2 \/ d = 3 \/ d = 4 \/ d = 5 \/ d = 6
               \/ d = 7 \/ d = 8 \/ d = 9) by lia.
  repeat (destruct Hc as [->|Hc]; [reflexivity|]). now subst.
Qed.

Lemma digit_char_not_minus (d : Z) :
  0 <= d < 10 -> Ascii.eqb (digit_char d) "-" = false.
Proof.
  intro Hd.
  assert (Hc : d = 0 \/ d = 1 \/ d = 2 \/ d = 3 \/ d = 4 \/ d = 5 \/ d = 6
               \/ d = 7 \/ d = 8 \/ d = 9) by lia.
  repeat (destruct Hc as [->|Hc]; [reflexivity|]). now subst.
Qed.

Lemma concat_str_of_tokens (l : list Z) :
  Forall (fun tok => 0 <= tok < 10) l ->
  concat (map str_of_int l) = map digit_char l.
Proof.
  induction 1 as [|d l Hd _ IH]; [reflexivity|].
  cbn [map concat]. now rewrite str_of_int_token, IH.
Qed.

Lemma parse_digits_tokens (l : list Z) (acc : Z) :
  Forall (fun tok => 0 <= tok < 10) l ->
  parse_digits (map digit_char l) acc
  = Ok (fold_left (fun acc d => 10 * acc + d) l acc).
Proof.
  intro Hl. revert acc. induction Hl as [|d l Hd _ IH]; intro acc; [reflexivity|].
  cbn [map parse_digits fold_left].
  rewrite int_of_digit_char by lia. apply IH.
Qed.

Lemma int_of_str_tokens (l : list Z) :
  l <> [] -> Forall (fun tok => 0 <= tok < 10) l ->
  int_of_str (map digit_char l) = Ok (int_of_tokens l).
Proof.
  intros Hne Hl. destruct l as [|d l]; [congruence|].
  unfold int_of_str. cbn [map].
  rewrite digit_char_not_minus by (inversion Hl; assumption).
  exact (parse_digits_tokens (d :: l) 0 Hl).
Qed.

(** What [split] returns for a number that is not negative: its decimal
    digits, brought to two by a leading zero when there is only one. *)
Lemma split_nonneg (num : Z) :
  0 <= num ->
  exists m : nat,
    (1 <= m)%nat /\ Notebook.split num = Ok (zdigits (Nat.max 2 m) num) /\
    num < 10 ^ Z.of_nat m /\ (m = 1%nat \/ 10 ^ (Z.of_nat m - 1) <= num).
Proof.
  intro Hnum.
  destruct (digits_zdigits num Hnum) as (m & Hm & Hds & Hlt & Hge).
  exists m. split; [exact Hm|]. split; [|split; assumption].
  unfold Notebook.split. rewrite str_of_int_nonneg, Hds by assumption.
  rewrite mapM_digit_chars by apply zdigits_range. cbn [bind].
  rewrite zdigits_length.
  destruct (Z.ltb_spec 1 (Z.of_nat m)) as [Hgt|Hle].
  - now replace (Nat.max 2 m) with m by lia.
  - assert (m = 1%nat) by lia. subst m.
    change (10 ^ Z.of_nat 1) with 10 in Hlt.
    cbn [zdigits app Nat.max]. unfold index. cbn [length Z.of_nat].
    cbn [Z.leb Z.ltb Z.compare Pos.of_succ_nat andb Z.to_nat nth bind].
    rewrite (Z.div_small num 10) by lia. reflexivity.
Qed.

Lemma split_pads_to_two_tokens (num : Z) :
  0 <= num < 100 -> Notebook.split num = Ok (zdigits 2 num).
Proof.
  intro Hnum.
  destruct (split_nonneg num) as (m & Hm & Hs & Hlt & Hge); [lia|].
  rewrite Hs. f_equal. f_equal.
  destruct Hge as [->|Hge]; [reflexivity|].
  destruct (Nat.le_gt_cases m 2) as [|Hgt]; [lia|].
  assert (10 ^ 2 <= 10 ^ (Z.of_nat m - 1)) by (apply Z.pow_le_mono_r; lia).
  change (10 ^ 2) with 100 in *. lia.
Qed.

(** For an operand below 100, [split] gives the two tokens the dataset
    renders for a two-digit operand. *)
Theorem split_pads_to_two (num : Z) :
  0 <= num < 100 ->
  Notebook.split num = rendering 2 num /\
  exists hi lo, Notebook.split num = Ok [hi; lo] /\ 10 * hi + lo = num.
Proof.
  intro Hnum. rewrite split_pads_to_two_tokens by assumption. split.
  - symmetry. apply rendering_fits; [lia|].
    change (10 ^ 2) with 100. exact Hnum.
  - exists (num / 10 mod 10), (num mod 10). split; [reflexivity|].
    rewrite Z.mod_small.
    + pose proof (Z.div_mod num 10). lia.
    + split; [apply Z.div_pos; lia|apply Z.div_lt_upper_bound; lia].
Qed.

(** [split] loses nothing and cuts nothing: its tokens are digits that
    spell the number, at least two of them, and more than two as soon as
    the number has three digits. *)
Theorem split_spells_number (num : Z) :
  0 <= num ->
  exists l,
    Notebook.split num = Ok l /\
    int_of_tokens l = num /\
    Forall (fun tok => 0 <= tok <= 9) l /\
    (2 <= length l)%nat /\
    (100 <= num -> (3 <= length l)%nat).
Proof.
  intro Hnum.
  destruct (split_nonneg num Hnum) as (m & Hm & Hs & Hlt & Hge).
  exists (zdigits (Nat.max 2 m) num). split; [exact Hs|].
  assert (Hspell : int_of_tokens (zdigits (Nat.max 2 m) num) = num).
  { apply zdigits_spell. split; [assumption|].
    assert (10 ^ Z.of_nat m <= 10 ^ Z.of_nat (Nat.max 2 m))
      by (apply Z.pow_le_mono_r; lia).
    lia. }
  split; [exact Hspell|]. split; [apply zdigits_range|].
  rewrite zdigits_length. split; [lia|].
  intro H100. destruct Hge as [->|Hge].
  - change (10 ^ Z.of_nat 1) with 10 in Hlt. lia.
  - destruct (Nat.le_gt_cases 3 m) as [|Hlt3]; [lia|].
    assert (10 ^ Z.of_nat m <= 10 ^ 2) by (apply Z.pow_le_mono_r; lia).
    change (10 ^ 2) with 100 in *. lia.
Qed.

Lemma split_negative (num : Z) : num < 0 -> Notebook.split num = Raise ValueError.
Proof.
  intro Hnum. unfold Notebook.split, str_of_int.
  destruct (Z.ltb_spec num 0); [|lia]. reflexivity.
Qed.

(** The prompt [predict] builds for two operands below 100 is the operand
    part of the dataset's input for that problem, in a two-digit dataset. *)
Theorem prompt_is_dataset_input (d : t) (k a b : Z) :
  ndigit d = 2 ->
  0 <= a < 100 ->
  0 <= b < 100 ->
  index (ixes d) k = Ok (a * 100 + b) ->
  exists sa sb x y,
    Notebook.split a = Ok sa /\ Notebook.split b = Ok sb /\
    __getitem__ d k = Ok (x, y) /\
    sa ++ sb = firstn 4 x.
Proof.
  intros Hn Ha Hb Hidx.
  pose proof (getitem_closed d k (a * 100 + b)) as Hg. rewrite Hn in Hg.
  specialize (Hg ltac:(lia) Hidx ltac:(change (100 ^ 2) with 10000; lia)).
  cbv zeta in Hg. change (10 ^ 2) with 100 in Hg.
  rewrite Z.div_add_l, Z.div_small, Z.add_0_r in Hg by lia.
  rewrite Z.add_comm, Z.mod_add, Z.mod_small in Hg by lia.
  exists (zdigits 2 a), (zdigits 2 b). do 2 eexists.
  split; [apply split_pads_to_two_tokens; assumption|].
  split; [apply split_pads_to_two_tokens; assumption|].
  split; [exact Hg|].
  change (Z.to_nat 2) with 2%nat. reflexivity.
Qed.

Section Prediction.
Context {S : Sampler}.

Lemma predict_unfold (n a b : Z) (sa sb : list Z) :
  Notebook.split a = Ok sa -> Notebook.split b = Ok sb ->
  Notebook.predict n a b =
  int_of_str
    (concat (map str_of_int
               (slice_from (sample (sa ++ sb) (n + 1)) (- (n + 1))))).
Proof. intros Ha Hb. unfold Notebook.predict. now rewrite Ha, Hb. Qed.

(** The slice [result[-(n+1):]] of a prompt extended by [n+1] tokens is
    those tokens. *)
Lemma last_generated (prompt gen : list Z) (n : Z) :
  0 <= n -> length gen = Z.to_nat (n + 1) ->
  slice_from (prompt ++ gen) (- (n + 1)) = gen.
Proof.
  intros Hn Hgen. unfold slice_from, slice_bound.
  destruct (Z.ltb_spec (- (n + 1)) 0); [|lia].
  rewrite length_app, Hgen.
  replace (Z.to_nat (Z.max 0 (Z.of_nat (length prompt + Z.to_nat (n + 1)) + - (n + 1))))
    with (length prompt) by lia.
  rewrite skipn_app, skipn_all, Nat.sub_diag. reflexivity.
Qed.

(** A negative operand never reaches the model: [split] fails on the minus
    sign of [str(num)], and [predict] with it, with [ValueError]. *)
Theorem negative_operand_is_refused (n a b : Z) :
  (a < 0 -> Notebook.split a = Raise ValueError) /\
  (a < 0 \/ b < 0 -> Notebook.predict n a b = Raise ValueError).
Proof.
  split; [apply split_negative|].
  intro Hab. unfold Notebook.predict.
  destruct (Z.lt_ge_cases a 0) as [Ha|Ha].
  - now rewrite split_negative.
  - destruct (split_nonneg a Ha) as (m & _ & -> & _). cbn [bind].
    rewrite split_negative by lia. reflexivity.
Qed.

(** When the model completes the prompt of two operands below 100 to the
    token sequence the dataset renders for that problem, [predict] returns
    their sum. *)
Theorem predict_exact_model (a b : Z) (dix : list Z) :
  0 <= a < 100 ->
  0 <= b < 100 ->
  dix_of 2 (a * 100 + b) = Ok dix ->
  (forall sa sb,
     Notebook.split a = Ok sa -> Notebook.split b = Ok sb ->
     sample (sa ++ sb) (2 + 1) = dix) ->
  Notebook.predict 2 a b = Ok (a + b).
Proof.
  intros Ha Hb Hdix Hmodel.
  pose proof (split_pads_to_two_tokens a Ha) as Sa.
  pose proof (split_pads_to_two_tokens b Hb) as Sb.
  rewrite (predict_unfold 2 a b _ _ Sa Sb), (Hmodel _ _ Sa Sb).
  rewrite dix_of_fits in Hdix by (change (100 ^ 2) with 10000; lia).
  change (10 ^ 2) with 100 in Hdix.
  rewrite Z.div_add_l, Z.div_small, Z.add_0_r in Hdix by lia.
  rewrite Z.add_comm, Z.mod_add, Z.mod_small in Hdix by lia.
  change (Z.to_nat 2) with 2%nat in Hdix.
  assert (Hd : dix = (zdigits 2 a ++ zdigits 2 b) ++ zdigits 3 (a + b)).
  { rewrite <- app_assoc. congruence. }
  rewrite Hd.
  rewrite last_generated by (rewrite ?zdigits_length; lia).
  rewrite concat_str_of_tokens.
  - rewrite int_of_str_tokens.
    + f_equal. apply zdigits_spell. change (10 ^ Z.of_nat 3) with 1000. lia.
    + intro E. apply (f_equal (@length Z)) in E.
      rewrite zdigits_length in E. discriminate.
    + eapply Forall_impl; [|apply zdigits_range]. cbv beta. intros. lia.
  - eapply Forall_impl; [|apply zdigits_range]. cbv beta. intros. lia.
Qed.

Context {SS : SamplerSpec S}.

(** For operands that are not negative, [predict] returns the number the
    [ndigit+1] generated tokens spell, a number below [10^(ndigit+1)],
    whatever the length of the prompt. *)
Theorem predict_reads_generated_tokens (n a b : Z) :
  0 <= n ->
  0 <= a ->
  0 <= b ->
  exists sa sb gen,
    Notebook.split a = Ok sa /\ Notebook.split b = Ok sb /\
    sample (sa ++ sb) (n + 1) = (sa ++ sb) ++ gen /\
    Z.of_nat (length gen) = n + 1 /\
    Notebook.predict n a b = Ok (int_of_tokens gen) /\
    0 <= int_of_tokens gen < 10 ^ (n + 1).
Proof.
  intros Hn Ha Hb.
  destruct (split_nonneg a Ha) as (ma & _ & Sa & _).
  destruct (split_nonneg b Hb) as (mb & _ & Sb & _).
  destruct (sample_extends (zdigits (Nat.max 2 ma) a ++ zdigits (Nat.max 2 mb) b)
              (n + 1)) as (gen & Hs & Hlen & Hgen).
  exists (zdigits (Nat.max 2 ma) a), (zdigits (Nat.max 2 mb) b), gen.
  split; [exact Sa|]. split; [exact Sb|]. split; [exact Hs|].
  split; [lia|].
  assert (Hgen9 : Forall (fun d => 0 <= d <= 9) gen).
  { eapply Forall_impl; [|exact Hgen]. cbv beta. intros. lia. }
  split.
  - rewrite (predict_unfold n a b _ _ Sa Sb), Hs.
    rewrite last_generated by assumption.
    rewrite concat_str_of_tokens by assumption.
    apply int_of_str_tokens; [|assumption].
    intro E. rewrite E in Hlen. cbn [length] in Hlen. lia.
  - pose proof (int_of_tokens_bound gen Hgen9) as Hbound.
    replace (Z.of_nat (length gen)) with (n + 1) in Hbound by lia.
    exact Hbound.
Qed.

End Prediction.

(** The example samplers answer with as many vocabulary tokens as asked. *)
Lemma ZeroSampler_spec : SamplerSpec ZeroSampler.
Proof.
  constructor. intros input steps. exists (repeat 0 (Z.to_nat steps)).
  split; [reflexivity|]. split; [apply repeat_length|].
  rewrite Forall_forall. intros tok Htok. apply repeat_spec in Htok. lia.
Qed.

Lemma AddingSampler_spec : SamplerSpec AddingSampler.
Proof.
  constructor. intros input steps. eexists.
  split; [reflexivity|]. split; [apply zdigits_length|].
  eapply Forall_impl; [|apply zdigits_range]. cbv beta. intros. lia.
Qed.

(** ** The further statements at concrete inputs *)

Lemma tokens_in_vocabulary_witness :
  1 <= 1 /\
  @__init__ RevRandom 1 "test" = Ok test1 /\
  0 <= 0 < __len__ test1 /\
  exists x y,
    __getitem__ test1 0 = Ok (x, y) /\
    Forall (fun tok => 0 <= tok < vocab_size test1) x /\
    Forall (fun tok => tok = sentinel \/ 0 <= tok < vocab_size test1) y.
Proof.
  assert (H1 : 1 <= 1) by lia.
  assert (H2 : @__init__ RevRandom 1 "test" = Ok test1) by (vm_compute; reflexivity).
  assert (H3 : 0 <= 0 < __len__ test1) by (vm_compute; split; [discriminate|reflexivity]).
  exact (conj H1 (conj H2 (conj H3
           (tokens_in_vocabulary (R := RevRandom) (RS := RevRandom_spec)
              1 "test" test1 0 H1 H2 H3)))).
Defined.

Lemma target_is_next_token_witness :
  1 <= 1 /\
  @__init__ RevRandom 1 "test" = Ok test1 /\
  0 <= 0 < __len__ test1 /\
  exists idx dix x y,
    index (ixes test1) 0 = Ok idx /\ dix_of (ndigit test1) idx = Ok dix /\
    __getitem__ test1 0 = Ok (x, y) /\
    (forall i : nat, Z.of_nat i < 3 * 1 -> nth i x 0 = nth i dix 0) /\
    (forall i : nat, 2 * 1 - 1 <= Z.of_nat i < 3 * 1 ->
       nth i y 0 = nth (S i) dix 0) /\
    (forall i : nat, 2 * 1 - 1 <= Z.of_nat i < 3 * 1 - 1 ->
       nth i y 0 = nth (S i) x 0).
Proof.
  assert (H1 : 1 <= 1) by lia.
  assert (H2 : @__init__ RevRandom 1 "test" = Ok test1) by (vm_compute; reflexivity).
  assert (H3 : 0 <= 0 < __len__ test1) by (vm_compute; split; [discriminate|reflexivity]).
  exact (conj H1 (conj H2 (conj H3
           (target_is_next_token (R := RevRandom) (RS := RevRandom_spec)
              1 "test" test1 0 H1 H2 H3)))).
Defined.

Lemma input_spells_index_witness :
  1 <= 1 /\
  @__init__ RevRandom 1 "train" = Ok train1 /\
  0 <= 7 < __len__ train1 /\
  exists idx x y,
    index (ixes train1) 7 = Ok idx /\ __getitem__ train1 7 = Ok (x, y) /\
    0 <= idx < 100 ^ 1 /\
    int_of_tokens (firstn (Z.to_nat (2 * 1)) x) = idx.
Proof.
  assert (H1 : 1 <= 1) by lia.
  assert (H2 : @__init__ RevRandom 1 "train" = Ok train1) by (vm_compute; reflexivity).
  assert (H3 : 0 <= 7 < __len__ train1) by (vm_compute; split; [discriminate|reflexivity]).
  exact (conj H1 (conj H2 (conj H3
           (input_spells_index (R := RevRandom) (RS := RevRandom_spec)
              1 "train" train1 7 H1 H2 H3)))).
Defined.

Lemma distinct_positions_distinct_inputs_witness :
  1 <= 1 /\
  @__init__ RevRandom 1 "test" = Ok test1 /\
  0 <= 3 < __len__ test1 /\
  __getitem__ test1 3 = Ok ([9; 6; 1], [sentinel; 1; 5]) /\
  3 = 3.
Proof.
  assert (H1 : 1 <= 1) by lia.
  assert (H2 : @__init__ RevRandom 1 "test" = Ok test1) by (vm_compute; reflexivity).
  assert (H3 : 0 <= 3 < __len__ test1) by (vm_compute; split; [discriminate|reflexivity]).
  assert (H4 : __getitem__ test1 3 = Ok ([9; 6; 1], [sentinel; 1; 5]))
    by (vm_compute; reflexivity).
  exact (conj H1 (conj H2 (conj H3 (conj H4
           (distinct_positions_distinct_inputs (R := RevRandom) (RS := RevRandom_spec)
              1 "test" test1 3 3 _ _ _ _ H1 H2 H3 H3 H4 H4 eq_refl))))).
Defined.

Lemma train_and_test_share_no_example_witness :
  1 <= 1 /\
  @__init__ RevRandom 1 "train" = Ok train1 /\
  @__init__ RevRandom 1 "test" = Ok test1 /\
  0 <= 0 < __len__ train1 /\
  0 <= 0 < __len__ test1 /\
  __getitem__ train1 0 = Ok ([7; 9; 1], [sentinel; 1; 6]) /\
  __getitem__ test1 0 = Ok ([9; 9; 1], [sentinel; 1; 8]) /\
  [7; 9; 1] <> [9; 9; 1].
Proof.
  assert (H1 : 1 <= 1) by lia.
  assert (H2 : @__init__ RevRandom 1 "train" = Ok train1) by (vm_compute; reflexivity).
  assert (H3 : @__init__ RevRandom 1 "test" = Ok test1) by (vm_compute; reflexivity).
  assert (H4 : 0 <= 0 < __len__ train1) by (vm_compute; split; [discriminate|reflexivity]).
  assert (H5 : 0 <= 0 < __len__ test1) by (vm_compute; split; [discriminate|reflexivity]).
  assert (H6 : __getitem__ train1 0 = Ok ([7; 9; 1], [sentinel; 1; 6]))
    by (vm_compute; reflexivity).
  assert (H7 : __getitem__ test1 0 = Ok ([9; 9; 1], [sentinel; 1; 8]))
    by (vm_compute; reflexivity).
  exact (conj H1 (conj H2 (conj H3 (conj H4 (conj H5 (conj H6 (conj H7
           (train_and_test_share_no_example (R := RevRandom) (RS := RevRandom_spec)
              1 train1 test1 0 0 _ _ _ _ H1 H2 H3 H4 H5 H6 H7)))))))).
Defined.

Lemma split_sizes_witness :
  1 <= 1 /\
  @__init__ RevRandom 1 "train" = Ok train1 /\
  @__init__ RevRandom 1 "test" = Ok test1 /\
  __len__ train1 = 100 ^ 1 - Z.min (100 ^ 1 / 5) 1000 /\
  0 < __len__ test1 /\
  4 * __len__ test1 <= __len__ train1.
Proof.
  assert (H1 : 1 <= 1) by lia.
  assert (H2 : @__init__ RevRandom 1 "train" = Ok train1) by (vm_compute; reflexivity).
  assert (H3 : @__init__ RevRandom 1 "test" = Ok test1) by (vm_compute; reflexivity).
  exact (conj H1 (conj H2 (conj H3
           (split_sizes (R := RevRandom) (RS := RevRandom_spec)
              1 train1 test1 H1 H2 H3)))).
Defined.

Lemma zero_width_dataset_witness :
  @__init__ RevRandom 0 "train" = Ok (mk "train" 0 10 0 [0]) /\
  "train"%string <> "test"%string /\
  __len__ (mk "train" 0 10 0 [0]) = 1 /\
  __getitem__ (mk "train" 0 10 0 [0]) 0 = Ok ([0; 0], [sentinel; 0]).
Proof.
  assert (H1 : @__init__ RevRandom 0 "train" = Ok (mk "train" 0 10 0 [0]))
    by (vm_compute; reflexivity).
  assert (H2 : "train"%string <> "test"%string) by discriminate.
  exact (conj H1 (conj H2
           (proj2 (proj2 (zero_width_dataset (R := RevRandom) (RS := RevRandom_spec)
                            "train" _ H1)) H2))).
Defined.

Lemma final_tokens_counts_loss_tokens_witness :
  1 <= 1 /\
  @__init__ RevRandom 1 "train" = Ok train1 /\
  loss_tokens train1 = Ok (__len__ train1 * (1 + 1)) /\
  Notebook.final_tokens train1 1 = 50 * (__len__ train1 * (1 + 1)).
Proof.
  assert (H1 : 1 <= 1) by lia.
  assert (H2 : @__init__ RevRandom 1 "train" = Ok train1) by (vm_compute; reflexivity).
  exact (conj H1 (conj H2
           (final_tokens_counts_loss_tokens (R := RevRandom) (RS := RevRandom_spec)
              1 "train" train1 H1 H2))).
Defined.

Lemma split_pads_to_two_witness :
  0 <= 7 < 100 /\
  Notebook.split 7 = rendering 2 7 /\
  exists hi lo, Notebook.split 7 = Ok [hi; lo] /\ 10 * hi + lo = 7.
Proof.
  assert (H1 : 0 <= 7 < 100) by lia.
  exact (conj H1 (split_pads_to_two 7 H1)).
Defined.

Lemma split_spells_number_witness :
  0 <= 123 /\
  exists l,
    Notebook.split 123 = Ok l /\
    int_of_tokens l = 123 /\
    Forall (fun tok => 0 <= tok <= 9) l /\
    (2 <= length l)%nat /\
    (100 <= 123 -> (3 <= length l)%nat).
Proof.
  assert (H1 : 0 <= 123) by lia.
  exact (conj H1 (split_spells_number 123 H1)).
Defined.

Lemma negative_operand_is_refused_witness :
  -1 < 0 /\
  Notebook.split (-1) = Raise ValueError /\
  @Notebook.predict ZeroSampler 2 (-1) 5 = Raise ValueError /\
  @Notebook.predict ZeroSampler 2 5 (-1) = Raise ValueError.
Proof.
  assert (H1 : -1 < 0) by lia.
  exact (conj H1
           (conj (proj1 (negative_operand_is_refused (S := ZeroSampler) 2 (-1) 5) H1)
              (conj (proj2 (negative_operand_is_refused (S := ZeroSampler) 2 (-1) 5)
                       (or_introl H1))
                    (proj2 (negative_operand_is_refused (S := ZeroSampler) 2 5 (-1))
                       (or_intror H1))))).
Defined.

Lemma prompt_is_dataset_input_witness :
  ndigit two_problems = 2 /\
  0 <= 6 < 100 /\
  0 <= 39 < 100 /\
  index (ixes two_problems) 0 = Ok (6 * 100 + 39) /\
  exists sa sb x y,
    Notebook.split 6 = Ok sa /\ Notebook.split 39 = Ok sb /\
    __getitem__ two_problems 0 = Ok (x, y) /\
    sa ++ sb = firstn 4 x.
Proof.
  assert (H1 : ndigit two_problems = 2) by reflexivity.
  assert (H2 : 0 <= 6 < 100) by lia.
  assert (H3 : 0 <= 39 < 100) by lia.
  assert (H4 : index (ixes two_problems) 0 = Ok (6 * 100 + 39)) by reflexivity.
  exact (conj H1 (conj H2 (conj H3 (conj H4
           (prompt_is_dataset_input two_problems 0 6 39 H1 H2 H3 H4))))).
Defined.

Lemma predict_exact_model_witness :
  0 <= 6 < 100 /\
  0 <= 39 < 100 /\
  dix_of 2 (6 * 100 + 39) = Ok [0; 6; 3; 9; 0; 4; 5] /\
  @Notebook.predict AddingSampler 2 6 39 = Ok (6 + 39).
Proof.
  assert (H1 : 0 <= 6 < 100) by lia.
  assert (H2 : 0 <= 39 < 100) by lia.
  assert (H3 : dix_of 2 (6 * 100 + 39) = Ok [0; 6; 3; 9; 0; 4; 5])
    by (vm_compute; reflexivity).
  assert (H4 : forall sa sb,
             Notebook.split 6 = Ok sa -> Notebook.split 39 = Ok sb ->
             @sample AddingSampler (sa ++ sb) (2 + 1) = [0; 6; 3; 9; 0; 4; 5]).
  { intros sa sb Ha Hb. vm_compute in Ha, Hb.
    injection Ha as <-. injection Hb as <-. reflexivity. }
  exact (conj H1 (conj H2 (conj H3
           (predict_exact_model (S := AddingSampler) 6 39 _ H1 H2 H3 H4)))).
Defined.

Lemma predict_reads_generated_tokens_witness :
  0 <= 2 /\ 0 <= 85 /\ 0 <= 50 /\
  exists sa sb gen,
    Notebook.split 85 = Ok sa /\ Notebook.split 50 = Ok sb /\
    @sample ZeroSampler (sa ++ sb) (2 + 1) = (sa ++ sb) ++ gen /\
    Z.of_nat (length gen) = 2 + 1 /\
    @Notebook.predict ZeroSampler 2 85 50 = Ok (int_of_tokens gen) /\
    0 <= int_of_tokens gen < 10 ^ (2 + 1).
Proof.
  assert (H1 : 0 <= 2) by lia.
  assert (H2 : 0 <= 85) by lia.
  assert (H3 : 0 <= 50) by lia.
  exact (conj H1 (conj H2 (conj H3
           (predict_reads_generated_tokens (S := ZeroSampler) (SS := ZeroSampler_spec)
              2 85 50 H1 H2 H3)))).
Defined.
